(** * sqlalchemy_utils.view : views and materialized views

    A shallow embedding of [sqlalchemy_utils/view.py] and the properties of
    its statement compilers, its factories and its lifecycle hooks.

    Modelling scope.  The schema toolkit (SQLAlchemy) is a collaborator of the
    module: its value objects ([Column], [Index], [PrimaryKeyConstraint],
    [MetaData]) are plain data here.  The failures that are modelled are the
    ones the module raises itself (the [ValueError] of [View.__init__], the
    attribute read of the DROP compiler), the refusals of the toolkit that
    the module runs into (a table name already in the container, a dialect
    keyword argument that is not registered, a primary-key constraint over a
    name that is not a column key) and the execution errors of the database,
    which an oracle carried by the connection decides.  Python objects that
    are shared and mutated (views, metadata containers, the class attribute
    [View.__visit_name__], the registry of dialect keyword arguments) live
    in an explicit store, the [World]. *)

From stdpp Require Import gmap strings list pretty.

Local Open Scope Z_scope.

(** ** Python values and errors *)

(** The values that occur as storage parameters and as attributes assigned
    to an instance from outside its constructor. *)
Inductive py_value : Type :=
  | PyNone
  | PyBool (b : bool)
  | PyInt (z : Z)
  | PyStr (s : string).

(** [str(v)], what the [%s] conversion of a format string applies. *)
Definition py_str (v : py_value) : string :=
  match v with
  | PyNone => "None"
  | PyBool true => "True"
  | PyBool false => "False"
  | PyInt z => pretty z
  | PyStr s => s
  end.

(** Truth value of [v], as tested by [if v] and [x if v else y]. *)
Definition truthy (v : py_value) : bool :=
  match v with
  | PyNone => false
  | PyBool b => b
  | PyInt z => negb (z =? 0)
  | PyStr s => negb (String.eqb s EmptyString)
  end.

Inductive py_error : Type :=
  | ValueError (msg : string)
  | AttributeError (attr : string)
  | ExecutionError (msg : string)
  | InvalidRequestError (table : string)
  | ArgumentError (msg : string)
  | ConstraintColumnNotFoundError (column : string).

Inductive result (A : Type) : Type :=
  | Ok (a : A)
  | Err (e : py_error).
Arguments Ok {A} a.
Arguments Err {A} e.

Definition is_ok {A} (r : result A) : bool :=
  match r with Ok _ => true | Err _ => false end.

(** ** Data model *)

Inductive sql_type : Type :=
  | Integer
  | Text
  | Boolean
  | OtherType (type_name : string).

(** A column of a selectable, as [get_columns] yields it. *)
Record SourceColumn : Type := {
  sc_name : string;
  sc_type : sql_type;
  sc_primary_key : bool
}.

(** A piece of a query: literal SQL text or a bound parameter. *)
Inductive fragment : Type :=
  | Sql (text : string)
  | Bind (value : py_value).

Record Selectable : Type := {
  sel_columns : list SourceColumn;
  sel_query : list fragment
}.

(** [sa.Column(name, type, key=..., primary_key=...)]. *)
Record Column : Type := {
  col_name : string;
  col_type : sql_type;
  col_key : string;
  col_primary_key : bool
}.

Record Index : Type := {
  idx_name : string;
  idx_columns : list string
}.

#[global] Instance Index_eq_dec : EqDecision Index.
Proof. solve_decision. Defined.

#[global] Instance Index_countable : Countable Index.
Proof.
  refine (inj_countable' (fun i => (idx_name i, idx_columns i))
            (fun p => {| idx_name := p.1; idx_columns := p.2 |}) _).
  by intros [].
Defined.

Inductive Constraint : Type :=
  | PrimaryKeyConstraint (column_names : list string).

(** The positional [*args] of a table constructor. *)
Inductive SchemaItem : Type :=
  | ItemColumn (c : Column)
  | ItemIndex (i : Index)
  | ItemConstraint (c : Constraint).

(** An ordinary table of the toolkit. *)
Record Table : Type := {
  t_name : string;
  t_columns : list Column
}.

(** A storage-parameter mapping, in the insertion order that [items()]
    follows. *)
Definition storage_parameters : Type := list (string * py_value).

(** The per-dialect option bag of a schema object: dialect name, then option
    key.  [**kwargs] such as [postgresql_with={...}] end up here. *)
Definition dialect_kwargs : Type := gmap string (gmap string storage_parameters).

(** [class View(Table)].  [v_metadata] is the address of the owning container
    in the store; [v_indexes] is [view.indexes], a set, in which an index
    descriptor stands for itself; [v_constraints] holds the constraints
    given to the table explicitly, not the primary key that the toolkit
    derives from flagged columns; [v_attrs] holds the attributes that
    callers assign to the instance after construction, the only place where
    an attribute that no constructor sets can come from. *)
Record View : Type := {
  v_name : string;
  v_metadata : nat;
  v_columns : list Column;
  v_indexes : gset Index;
  v_constraints : list Constraint;
  dialect_options : dialect_kwargs;
  _selectable : Selectable;
  _materialized : bool;
  _replace : bool;
  v_attrs : gmap string py_value
}.

(** The three properties of the class. *)
Definition selectable (v : View) : Selectable := _selectable v.
Definition materialized (v : View) : bool := _materialized v.
Definition replace (v : View) : bool := _replace v.

(** Attribute access for a name that is neither a field nor a property:
    [AttributeError] unless a caller assigned it. *)
Definition getattr (v : View) (attr : string) : result py_value :=
  match v_attrs v !! attr with
  | Some x => Ok x
  | None => Err (AttributeError attr)
  end.

(** [view.attr = x], by a caller. *)
Definition setattr (attr : string) (x : py_value) (v : View) : View :=
  {| v_name := v_name v; v_metadata := v_metadata v; v_columns := v_columns v;
     v_indexes := v_indexes v; v_constraints := v_constraints v;
     dialect_options := dialect_options v; _selectable := _selectable v;
     _materialized := _materialized v; _replace := _replace v;
     v_attrs := <[attr := x]> (v_attrs v) |}.

(** A view seen by the generic table machinery. *)
Definition view_as_table (v : View) : Table :=
  {| t_name := v_name v; t_columns := v_columns v |}.

(** ** Statement objects *)

Record CreateView : Type := {
  cv_element : View;
  if_not_exists : bool
}.

Record DropView : Type := {
  dv_element : View;
  if_exists : bool
}.

Record RefreshMaterializedView : Type := {
  rmv_name : string;
  concurrently : bool
}.

(** ** The compiler of the active dialect

    [quote] is [compiler.dialect.identifier_preparer.quote], [process] is
    [compiler.sql_compiler.process(selectable, literal_binds=...)]; the last
    three fields render the toolkit's own DDL. *)
Record Compiler : Type := {
  dialect_name : string;
  quote : string -> string;
  process : Selectable -> bool -> string;
  visit_create_table : Table -> string;
  visit_drop_table : Table -> string;
  visit_create_index : Index -> string
}.

(** ** The statement compilers *)

(** The [WITH] clause of [compile_create_materialized_view]:
    [element.dialect_options.get("postgresql", {}).get("with", {})]. *)
Definition withclause (element : View) : storage_parameters :=
  default [] (default ∅ (dialect_options element !! "postgresql") !! "with").

Definition storage_parameter_text (storage_parameter : string * py_value) : string :=
  storage_parameter.1 +:+ " = " +:+ py_str storage_parameter.2.

Definition withclause_text (element : View) : string :=
  match withclause element with
  | [] => EmptyString
  | items =>
      " WITH (" +:+ String.concat ", " (storage_parameter_text <$> items) +:+ ")"
  end.

Definition compile_create_materialized_view
    (create : CreateView) (compiler : Compiler) : string :=
  let element := cv_element create in
  "CREATE " +:+ (if replace element then "OR REPLACE " else EmptyString)
    +:+ (if materialized element then "MATERIALIZED " else EmptyString)
    +:+ "VIEW " +:+ quote compiler (v_name element)
    +:+ withclause_text element
    +:+ " AS " +:+ process compiler (selectable element) true.

Definition compile_drop_materialized_view
    (create : DropView) (compiler : Compiler) : result string :=
  let element := dv_element create in
  match getattr element "cascade" with
  | Err e => Err e
  | Ok cascade =>
      Ok ("DROP " +:+ (if materialized element then "MATERIALIZED " else EmptyString)
            +:+ "VIEW IF EXISTS " +:+ quote compiler (v_name element)
            +:+ " " +:+ (if truthy cascade then "CASCADE" else EmptyString))
  end.

Definition compile_refresh_materialized_view
    (element : RefreshMaterializedView) (compiler : Compiler) : string :=
  "REFRESH MATERIALIZED VIEW "
    +:+ (if concurrently element then "CONCURRENTLY " else EmptyString)
    +:+ quote compiler (rmv_name element).

(** ** The store and the effects *)

(** The closures that the factories register as event listeners.  Each one
    captures the variable [view], a reference to the view object. *)
Inductive Hook : Type :=
  | hook_create_view (view : nat)
  | hook_create_indexes (view : nat)
  | hook_drop_view (view : nat).

(** A member of a container's table collection. *)
Inductive TableRef : Type :=
  | BaseTable (t : Table)
  | ViewRef (view : nat).

(** [sa.MetaData]: the table collection and the listeners of the two events
    that the module subscribes to, in registration order. *)
Record MetaData : Type := {
  tables : list TableRef;
  after_create : list Hook;
  before_drop : list Hook
}.

Inductive Statement : Type :=
  | StmtCreateTable (t : Table)
  | StmtDropTable (t : Table)
  | StmtCreateIndex (i : Index)
  | StmtCreateView (c : CreateView)
  | StmtDropView (d : DropView)
  | StmtRefresh (r : RefreshMaterializedView).

(** A call issued on a session or on a connection. *)
Inductive Call : Type :=
  | CallFlush
  | CallExecute (stmt : Statement).

(** The toolkit's registry of dialect keyword arguments, as far as [View] is
    concerned: for each dialect that has one, the argument names it accepts
    on behalf of the class, ["*"] standing for any name.  Callers add to it
    with [View.argument_for]. *)
Definition registry : Type := gmap string (list string).

(** [visit_name] is the class attribute [View.__visit_name__]; [views] and
    [metadatas] are the objects, addressed by position; [calls] is the trace
    of the calls issued so far and [database] the SQL text that the database
    has run, oldest first; [kw_registry] is the registry of dialect keyword
    arguments as it stands. *)
Record World : Type := {
  visit_name : string;
  views : list View;
  metadatas : list MetaData;
  calls : list Call;
  database : list string;
  kw_registry : registry
}.

(** A registry in which PostgreSQL accepts its table arguments and no
    other dialect keeps a list. *)
Definition postgresql_registry : registry :=
  {[ "postgresql" := ["ignore_search_path"; "tablespace"; "partition_by"; "with_oids";
                       "on_commit"; "inherits"; "using"] ]}.

(** The class body: [__visit_name__ = "table"]. *)
Definition initial_world : World :=
  {| visit_name := "table"; views := []; metadatas := []; calls := []; database := [];
     kw_registry := postgresql_registry |}.

(** A connection: the compiler of its dialect and the database behind it,
    which may refuse a statement given what it has run so far. *)
Record Connection : Type := {
  conn_compiler : Compiler;
  conn_refuses : list string -> string -> option py_error
}.

Record Session : Type := {
  sess_bind : Connection
}.

(** Computations over the store that may raise.  The store survives an
    exception, as the heap of a Python program does. *)
Definition M (A : Type) : Type := World -> result A * World.

Definition ret {A} (a : A) : M A := fun w => (Ok a, w).
Definition raise {A} (e : py_error) : M A := fun w => (Err e, w).
Definition bind {A B} (m : M A) (k : A -> M B) : M B :=
  fun w => match m w with
           | (Ok a, w') => k a w'
           | (Err e, w') => (Err e, w')
           end.
Definition get : M World := fun w => (Ok w, w).
Definition modify (f : World -> World) : M unit := fun w => (Ok tt, f w).

(** [try: body finally: cleanup], for a cleanup that does not raise. *)
Definition try_finally {A} (body : M A) (cleanup : World -> World) : M A :=
  fun w => match body w with (r, w') => (r, cleanup w') end.

Declare Scope py_scope.
Delimit Scope py_scope with py.
Notation "x <- m ;; k" := (bind m (fun x => k))
  (at level 100, m at next level, right associativity) : py_scope.
Notation "m ;; k" := (bind m (fun _ => k))
  (at level 100, right associativity) : py_scope.
Local Open Scope py_scope.

Fixpoint for_each {A} (body : A -> M unit) (l : list A) : M unit :=
  match l with
  | [] => ret tt
  | x :: l' => body x ;; for_each body l'
  end.

Definition set_visit_name (tag : string) (w : World) : World :=
  {| visit_name := tag; views := views w; metadatas := metadatas w;
     calls := calls w; database := database w; kw_registry := kw_registry w |}.

Definition set_views (vs : list View) (w : World) : World :=
  {| visit_name := visit_name w; views := vs; metadatas := metadatas w;
     calls := calls w; database := database w; kw_registry := kw_registry w |}.

Definition set_metadatas (ms : list MetaData) (w : World) : World :=
  {| visit_name := visit_name w; views := views w; metadatas := ms;
     calls := calls w; database := database w; kw_registry := kw_registry w |}.

Definition set_registry (r : registry) (w : World) : World :=
  {| visit_name := visit_name w; views := views w; metadatas := metadatas w;
     calls := calls w; database := database w; kw_registry := r |}.

Definition log_call (c : Call) (w : World) : World :=
  {| visit_name := visit_name w; views := views w; metadatas := metadatas w;
     calls := calls w ++ [c]; database := database w; kw_registry := kw_registry w |}.

Definition log_sql (sql : string) (w : World) : World :=
  {| visit_name := visit_name w; views := views w; metadatas := metadatas w;
     calls := calls w; database := database w ++ [sql]; kw_registry := kw_registry w |}.

(** Following a reference.  A Python program holds no reference to an object
    that does not exist; the error is the model's own. *)
Definition dangling {A} : M A := raise (ExecutionError "dangling reference").

Definition deref_view (view : nat) : M View :=
  fun w => match views w !! view with
           | Some v => (Ok v, w)
           | None => dangling w
           end.

Definition deref_metadata (metadata : nat) : M MetaData :=
  fun w => match metadatas w !! metadata with
           | Some md => (Ok md, w)
           | None => dangling w
           end.

(** ** The toolkit's side *)

(** [sa.MetaData()]: a new, empty container. *)
Definition MetaData_new : M nat :=
  fun w => (Ok (length (metadatas w)),
            set_metadatas (metadatas w ++ [{| tables := []; after_create := []; before_drop := [] |}]) w).

Definition add_table (t : TableRef) (md : MetaData) : MetaData :=
  {| tables := tables md ++ [t]; after_create := after_create md; before_drop := before_drop md |}.

Definition add_after_create (h : Hook) (md : MetaData) : MetaData :=
  {| tables := tables md; after_create := after_create md ++ [h]; before_drop := before_drop md |}.

Definition add_before_drop (h : Hook) (md : MetaData) : MetaData :=
  {| tables := tables md; after_create := after_create md; before_drop := before_drop md ++ [h] |}.

(** [@sa.event.listens_for(metadata, 'after_create')] and
    [@sa.event.listens_for(metadata, 'before_drop')]. *)
Definition listens_for_after_create (metadata : nat) (h : Hook) : M unit :=
  modify (fun w => set_metadatas (alter (add_after_create h) metadata (metadatas w)) w).

Definition listens_for_before_drop (metadata : nat) (h : Hook) : M unit :=
  modify (fun w => set_metadatas (alter (add_before_drop h) metadata (metadatas w)) w).

Definition item_columns (args : list SchemaItem) : list Column :=
  omap (fun i => match i with ItemColumn c => Some c | _ => None end) args.
Definition item_indexes (args : list SchemaItem) : list Index :=
  omap (fun i => match i with ItemIndex x => Some x | _ => None end) args.
Definition item_constraints (args : list SchemaItem) : list Constraint :=
  omap (fun i => match i with ItemConstraint c => Some c | _ => None end) args.

(** Whether the registry lets a keyword argument [<dialect>_<key>] through.
    A dialect without an entry is one the toolkit cannot validate: it warns
    and accepts. *)
Definition accepts (r : registry) (dialect key : string) : bool :=
  match r !! dialect with
  | None => true
  | Some keys => bool_decide ("*" ∈ keys) || bool_decide (key ∈ keys)
  end.

Definition kwargs_accepted (r : registry) (kwargs : dialect_kwargs) : bool :=
  forallb (fun entry : string * gmap string storage_parameters =>
             forallb (fun option : string * storage_parameters =>
                        accepts r entry.1 option.1)
               (map_to_list entry.2))
    (map_to_list kwargs).

(** The key under which a member of a table collection is filed: its name
    (schemas are not modelled). *)
Definition table_key (w : World) (t : TableRef) : option string :=
  match t with
  | BaseTable tb => Some (t_name tb)
  | ViewRef view => v_name <$> views w !! view
  end.

Definition has_table (w : World) (metadata : nat) (name : string) : bool :=
  match metadatas w !! metadata with
  | Some md => existsb (fun t => bool_decide (table_key w t = Some name)) (tables md)
  | None => false
  end.

Definition is_view_ref (view : nat) (t : TableRef) : bool :=
  match t with
  | BaseTable _ => false
  | ViewRef other => Nat.eqb other view
  end.

(** [metadata._remove_table], for the view at address [view]. *)
Definition remove_table (view : nat) (md : MetaData) : MetaData :=
  {| tables := List.filter (fun t => negb (is_view_ref view t)) (tables md);
     after_create := after_create md; before_drop := before_drop md |}.

(** The construction of a table, [Table.__init__(name, metadata, *args,
    **kwargs)], on an instance of [View].  The toolkit refuses a name that
    the container already holds and a dialect keyword argument that the
    registry does not accept.  Otherwise the schema items are sorted into
    the collections of the new object, the dialect keyword arguments become
    its option bag, and the object is registered in [metadata].  The three
    attributes of the subclass are passed along so that the object is built
    in one piece; nothing can observe it before [View.__init__] assigns
    them. *)
Definition Table_init (name : string) (metadata : nat) (args : list SchemaItem)
    (kwargs : dialect_kwargs) (sel : Selectable) (mat rep : bool) : M nat :=
  fun w =>
    if has_table w metadata name then (Err (InvalidRequestError name), w)
    else if negb (kwargs_accepted (kw_registry w) kwargs)
    then (Err (ArgumentError "Argument is not accepted by the dialect"), w)
    else
      let self := length (views w) in
      let v := {| v_name := name; v_metadata := metadata;
                  v_columns := item_columns args;
                  v_indexes := list_to_set (item_indexes args);
                  v_constraints := item_constraints args;
                  dialect_options := kwargs; _selectable := sel;
                  _materialized := mat; _replace := rep; v_attrs := ∅ |} in
      (Ok self,
       set_metadatas (alter (add_table (ViewRef self)) metadata (metadatas w))
         (set_views (views w ++ [v]) w)).

(** A column that a primary-key constraint names gets its primary-key flag
    set. *)
Definition mark_primary_key (names : list string) (c : Column) : Column :=
  if bool_decide (col_key c ∈ names)
  then {| col_name := col_name c; col_type := col_type c; col_key := col_key c;
          col_primary_key := true |}
  else c.

(** [table.append_constraint(constraint)] for a primary-key constraint given
    by column names.  The toolkit looks each name up among the keys of the
    columns of the table and refuses the first one it does not find;
    otherwise the constraint joins the table and the columns it names
    become primary-key columns. *)
Definition append_constraint (c : Constraint) (v : View) : result View :=
  match c with
  | PrimaryKeyConstraint names =>
      match List.find (fun n => negb (bool_decide (n ∈ col_key <$> v_columns v))) names with
      | Some missing => Err (ConstraintColumnNotFoundError missing)
      | None =>
          Ok {| v_name := v_name v; v_metadata := v_metadata v;
                v_columns := mark_primary_key names <$> v_columns v;
                v_indexes := v_indexes v; v_constraints := v_constraints v ++ [c];
                dialect_options := dialect_options v; _selectable := _selectable v;
                _materialized := _materialized v; _replace := _replace v;
                v_attrs := v_attrs v |}
      end
  end.

Definition update_view (view : nat) (f : View -> View) : M unit :=
  modify (fun w => set_views (alter f view (views w)) w).

Definition View_append_constraint (view : nat) (c : Constraint) : M unit :=
  v <- deref_view view ;;
  match append_constraint c v with
  | Ok v' => update_view view (fun _ => v')
  | Err e => raise e
  end.

(** Rendering of a statement by the compiler of a dialect: the three
    registered compilers of the module, and the toolkit's for its own DDL. *)
Definition compile (compiler : Compiler) (stmt : Statement) : result string :=
  match stmt with
  | StmtCreateTable t => Ok (visit_create_table compiler t)
  | StmtDropTable t => Ok (visit_drop_table compiler t)
  | StmtCreateIndex i => Ok (visit_create_index compiler i)
  | StmtCreateView c => Ok (compile_create_materialized_view c compiler)
  | StmtDropView d => compile_drop_materialized_view d compiler
  | StmtRefresh r => Ok (compile_refresh_materialized_view r compiler)
  end.

(** [connection.execute(stmt)]: the call is issued, the statement is
    compiled, and the text is sent to the database, which runs or refuses it. *)
Definition execute (conn : Connection) (stmt : Statement) : M unit :=
  modify (log_call (CallExecute stmt)) ;;
  match compile (conn_compiler conn) stmt with
  | Err e => raise e
  | Ok sql =>
      w <- get ;;
      match conn_refuses conn (database w) sql with
      | Some e => raise e
      | None => modify (log_sql sql)
      end
  end.

(** [session.flush()] and [session.execute(stmt)]. *)
Definition Session_flush (session : Session) : M unit :=
  modify (log_call CallFlush).

Definition Session_execute (session : Session) (stmt : Statement) : M unit :=
  execute (sess_bind session) stmt.

(** [index.create(connection)]. *)
Definition Index_create (idx : Index) (conn : Connection) : M unit :=
  execute conn (StmtCreateIndex idx).

(** ** The View entity *)

(** [View(name, metadata, selectable, materialized, replace, *args,
    **kwargs)]: the base initialiser runs first, then the check of the two
    flags of [View.__init__].  When the initialiser raises, the toolkit takes
    the object out of the container again. *)
Definition View_init (name : string) (metadata : nat) (sel : Selectable)
    (mat rep : bool) (args : list SchemaItem) (kwargs : dialect_kwargs) : M nat :=
  self <- Table_init name metadata args kwargs sel mat rep ;;
  if mat && rep
  then
    modify (fun w => set_metadatas (alter (remove_table self) metadata (metadatas w)) w) ;;
    raise (ValueError "Cannot use CREATE OR REPLACE with materialized views")
  else ret self.

(** *** The lifecycle visitors *)

Inductive Visitor : Type :=
  | ExtSchemaGenerator
  | ExtSchemaDropper.

(** [ExtSchemaGenerator.visit_view]: [CreateView(view)._invoke_with(connection)].
    No listener is attached to the view itself, so the DDL-event scope around
    the statement fires nothing. *)
Definition ExtSchemaGenerator_visit_view (conn : Connection) (view : nat) : M unit :=
  v <- deref_view view ;;
  execute conn (StmtCreateView {| cv_element := v; if_not_exists := false |}).

(** [ExtSchemaDropper.visit_view]: [DropView(view)(view, connection)]. *)
Definition ExtSchemaDropper_visit_view (conn : Connection) (view : nat) : M unit :=
  v <- deref_view view ;;
  execute conn (StmtDropView {| dv_element := v; if_exists := false |}).

(** The inherited [visit_table] of the two visitors, which is where a view
    lands while its dispatch tag reads "table".  The existence check that
    [checkfirst] asks for belongs to the toolkit and is not modelled. *)
Definition SchemaGenerator_visit_table (conn : Connection) (view : nat) : M unit :=
  v <- deref_view view ;;
  execute conn (StmtCreateTable (view_as_table v)).

Definition SchemaDropper_visit_table (conn : Connection) (view : nat) : M unit :=
  v <- deref_view view ;;
  execute conn (StmtDropTable (view_as_table v)).

(** [bind._run_ddl_visitor(visitorcallable, element, checkfirst=checkfirst)]:
    [traverse_single] looks up the method ["visit_" + element.__visit_name__]
    on the visitor and does nothing when there is none. *)
Definition run_ddl_visitor (conn : Connection) (visitorcallable : Visitor)
    (element : nat) (checkfirst : bool) : M unit :=
  w <- get ;;
  if String.eqb (visit_name w) "view" then
    match visitorcallable with
    | ExtSchemaGenerator => ExtSchemaGenerator_visit_view conn element
    | ExtSchemaDropper => ExtSchemaDropper_visit_view conn element
    end
  else if String.eqb (visit_name w) "table" then
    match visitorcallable with
    | ExtSchemaGenerator => SchemaGenerator_visit_table conn element
    | ExtSchemaDropper => SchemaDropper_visit_table conn element
    end
  else ret tt.

(** [View.create_view] and [View.drop_view]. *)
Definition View_create_view (self : nat) (conn : Connection) (checkfirst : bool) : M unit :=
  modify (set_visit_name "view") ;;
  try_finally (run_ddl_visitor conn ExtSchemaGenerator self checkfirst)
              (set_visit_name "table").

Definition View_drop_view (self : nat) (conn : Connection) (checkfirst : bool) : M unit :=
  modify (set_visit_name "view") ;;
  try_finally (run_ddl_visitor conn ExtSchemaDropper self checkfirst)
              (set_visit_name "table").

(** ** The factories *)

(** Modelled from the spec: [get_columns] of [sqlalchemy_utils.functions],
    which this file imports.  Section 4.1: an ordered sequence of column
    descriptors (name, type, primary-key flag), in the native column order of
    the query. *)
Definition get_columns (sel : Selectable) : list SourceColumn := sel_columns sel.

(** The column that [create_view_from_selectable] derives from [c]. *)
Definition derive_column (aliases : gmap string string) (c : SourceColumn) : Column :=
  {| col_name := sc_name c;
     col_type := sc_type c;
     col_key := default (sc_name c) (aliases !! sc_name c);
     col_primary_key := sc_primary_key c |}.

Definition create_view_from_selectable (name : string) (sel : Selectable)
    (indexes : option (list Index)) (metadata : option nat)
    (aliases : option (gmap string string)) (mat rep : bool)
    (kwargs : dialect_kwargs) : M nat :=
  let indexes := default [] indexes in
  metadata <- match metadata with
              | None => MetaData_new
              | Some m => ret m
              end ;;
  let aliases := default ∅ aliases in
  let args := (ItemColumn <$> (derive_column aliases <$> get_columns sel))
                ++ (ItemIndex <$> indexes) in
  view <- View_init name metadata sel mat rep args kwargs ;;
  (if negb (existsb sc_primary_key (get_columns sel))
   then View_append_constraint view
          (PrimaryKeyConstraint (sc_name <$> get_columns sel))
   else ret tt) ;;
  ret view.

Definition create_materialized_view (name : string) (sel : Selectable)
    (metadata : nat) (indexes : option (list Index))
    (aliases : option (gmap string string)) (kwargs : dialect_kwargs) : M nat :=
  view <- create_view_from_selectable name sel indexes None aliases true false kwargs ;;
  listens_for_after_create metadata (hook_create_view view) ;;
  listens_for_after_create metadata (hook_create_indexes view) ;;
  listens_for_before_drop metadata (hook_drop_view view) ;;
  ret view.

(** The [**kwargs] of [create_view], which it forwards to
    [create_view_from_selectable]: the parameters of the latter that
    [create_view] does not pass itself, and the dialect keyword arguments. *)
Record ViewKwargs : Type := {
  kw_indexes : option (list Index);
  kw_aliases : option (gmap string string);
  kw_materialized : option bool;
  kw_dialect : dialect_kwargs
}.

Definition create_view (name : string) (sel : Selectable) (metadata : nat)
    (cascade_on_drop : bool) (rep : bool) (kwargs : ViewKwargs) : M nat :=
  view <- create_view_from_selectable name sel (kw_indexes kwargs) None
            (kw_aliases kwargs) (default false (kw_materialized kwargs)) rep
            (kw_dialect kwargs) ;;
  listens_for_after_create metadata (hook_create_view view) ;;
  listens_for_after_create metadata (hook_create_indexes view) ;;
  listens_for_before_drop metadata (hook_drop_view view) ;;
  ret view.

(** The bodies of the three listeners.  [view.indexes] is a set: the loop
    over it takes the indexes in the order the set yields them. *)
Definition run_hook (conn : Connection) (h : Hook) : M unit :=
  match h with
  | hook_create_view view => View_create_view view conn false
  | hook_create_indexes view =>
      v <- deref_view view ;;
      for_each (fun idx => Index_create idx conn) (elements (v_indexes v))
  | hook_drop_view view => View_drop_view view conn false
  end.

(** ** Refresh *)

Definition refresh_materialized_view (session : Session) (name : string)
    (concurrently : bool) : M unit :=
  Session_flush session ;;
  Session_execute session
    (StmtRefresh {| rmv_name := name; concurrently := concurrently |}).

(** ** The container-wide passes *)

Definition as_table (t : TableRef) : M Table :=
  match t with
  | BaseTable t => ret t
  | ViewRef view => v <- deref_view view ;; ret (view_as_table v)
  end.

(** Modelled from the spec: [MetaData.create_all] of the schema toolkit.
    Sections 4.6 and 5: the pass emits the DDL of every member of the table
    collection, in dependency order, and only then fires the after-create
    hooks, in registration order. *)
Definition MetaData_create_all (metadata : nat) (conn : Connection) : M unit :=
  md <- deref_metadata metadata ;;
  for_each (fun t => tb <- as_table t ;; execute conn (StmtCreateTable tb)) (tables md) ;;
  for_each (run_hook conn) (after_create md).

(** Modelled from the spec: [MetaData.drop_all] of the schema toolkit.
    Sections 4.6 and 5: the before-drop hooks fire first, in registration
    order, then the members of the table collection are dropped, dependents
    first. *)
Definition MetaData_drop_all (metadata : nat) (conn : Connection) : M unit :=
  md <- deref_metadata metadata ;;
  for_each (run_hook conn) (before_drop md) ;;
  for_each (fun t => tb <- as_table t ;; execute conn (StmtDropTable tb)) (reverse (tables md)).

(** ** Sample inputs

    A dialect that wraps every identifier in double quotes and inlines bound
    parameters on request, and a few selectables, views and connections on
    which the definitions are evaluated below. *)

Definition dq : string := String (Ascii.ascii_of_nat 34) EmptyString.

Definition render_literal (v : py_value) : string :=
  match v with
  | PyStr s => "'" +:+ s +:+ "'"
  | _ => py_str v
  end.

Definition render_fragment (literal_binds : bool) (f : fragment) : string :=
  match f with
  | Sql text => text
  | Bind v => if literal_binds then render_literal v else "?"
  end.

Definition sample_compiler (name : string) : Compiler :=
  {| dialect_name := name;
     quote := fun s => dq +:+ s +:+ dq;
     process := fun sel literal_binds =>
       String.concat EmptyString (render_fragment literal_binds <$> sel_query sel);
     visit_create_table := fun t => "CREATE TABLE " +:+ dq +:+ t_name t +:+ dq;
     visit_drop_table := fun t => "DROP TABLE " +:+ dq +:+ t_name t +:+ dq;
     visit_create_index := fun i => "CREATE INDEX " +:+ dq +:+ idx_name i +:+ dq |}.

Definition postgresql : Compiler := sample_compiler "postgresql".
Definition sqlite : Compiler := sample_compiler "sqlite".

(** A database that runs whatever it is sent, and one that refuses
    everything. *)
Definition accepting (compiler : Compiler) : Connection :=
  {| conn_compiler := compiler; conn_refuses := fun _ _ => None |}.

Definition refusing (compiler : Compiler) : Connection :=
  {| conn_compiler := compiler;
     conn_refuses := fun _ sql => Some (ExecutionError sql) |}.

Definition col (name : string) (pk : bool) : SourceColumn :=
  {| sc_name := name; sc_type := if pk then Integer else Text; sc_primary_key := pk |}.

(** [SELECT t.id FROM t], columns [id (pk), name, email]. *)
Definition users_query : Selectable :=
  {| sel_columns := [col "id" true; col "name" false; col "email" false];
     sel_query := [Sql "SELECT t.id FROM t"] |}.

(** Columns [a, b], neither primary-key, with a bound parameter. *)
Definition ab_query : Selectable :=
  {| sel_columns := [col "a" false; col "b" false];
     sel_query := [Sql "SELECT t.a, t.b FROM t WHERE t.a > "; Bind (PyInt 5)] |}.


Definition fillfactor_70 : dialect_kwargs :=
  {[ "postgresql" := {[ "with" := [("fillfactor", PyInt 70)] ]} ]}.

Definition no_kwargs : ViewKwargs :=
  {| kw_indexes := None; kw_aliases := None; kw_materialized := None; kw_dialect := ∅ |}.

(** Two index descriptors, and the keyword arguments that pass them on. *)
Definition ix_a : Index := {| idx_name := "ix_a"; idx_columns := ["a"] |}.
Definition ix_b : Index := {| idx_name := "ix_b"; idx_columns := ["b"] |}.

Definition indexed_kwargs : ViewKwargs :=
  {| kw_indexes := Some [ix_a; ix_b]; kw_aliases := None; kw_materialized := None;
     kw_dialect := ∅ |}.

Definition plain_view (name : string) (mat rep : bool) (kwargs : dialect_kwargs) : View :=
  {| v_name := name; v_metadata := 0%nat; v_columns := []; v_indexes := ∅;
     v_constraints := []; dialect_options := kwargs; _selectable := users_query;
     _materialized := mat; _replace := rep; v_attrs := ∅ |}.

Definition users_table : Table :=
  {| t_name := "users"; t_columns := derive_column ∅ <$> sel_columns users_query |}.

(** A store with one container that holds the base table [users]. *)
Definition one_table_world : World :=
  {| visit_name := "table"; views := [];
     metadatas := [{| tables := [BaseTable users_table]; after_create := []; before_drop := [] |}];
     calls := []; database := []; kw_registry := postgresql_registry |}.

(** ** Notions used in the statements *)

(** [k1 = v1, k2 = v2, ...], written out pair by pair. *)
Fixpoint parameter_list (items : storage_parameters) : string :=
  match items with
  | [] => EmptyString
  | [(k, v)] => k +:+ " = " +:+ py_str v
  | (k, v) :: rest => k +:+ " = " +:+ py_str v +:+ ", " +:+ parameter_list rest
  end.

(** The non-empty storage parameters that the option bag of [v] holds under
    the namespace "postgresql" and the key "with", if any. *)
Definition postgresql_with (v : View) : option storage_parameters :=
  match dialect_options v !! "postgresql" with
  | Some namespace =>
      match namespace !! "with" with
      | Some (p :: ps) => Some (p :: ps)
      | _ => None
      end
  | None => None
  end.

(** Whether every column name of the selectable is the key of some derived
    column, which is what the primary-key constraint over the names needs. *)
Definition names_are_keys (aliases : gmap string string) (sel : Selectable) : bool :=
  forallb
    (fun n => bool_decide (n ∈ col_key <$> (derive_column aliases <$> get_columns sel)))
    (sc_name <$> get_columns sel).

(** Whether the construction of the view goes through: the two flags are not
    both set, the registry accepts the dialect keyword arguments, and the
    container passed in, if any, does not hold the name yet. *)
Definition construction_accepted (name : string) (metadata : option nat)
    (mat rep : bool) (kwargs : dialect_kwargs) (w : World) : bool :=
  negb (mat && rep)
  && kwargs_accepted (kw_registry w) kwargs
  && match metadata with
     | Some m => negb (has_table w m name)
     | None => true
     end.

(** The view object that [create_view_from_selectable] leaves in the store. *)
Definition derived_view (name : string) (metadata : nat) (sel : Selectable)
    (indexes : list Index) (aliases : gmap string string) (mat rep : bool)
    (kwargs : dialect_kwargs) : View :=
  {| v_name := name; v_metadata := metadata;
     v_columns :=
       if existsb sc_primary_key (get_columns sel)
       then derive_column aliases <$> get_columns sel
       else mark_primary_key (sc_name <$> get_columns sel)
              <$> (derive_column aliases <$> get_columns sel);
     v_indexes := list_to_set indexes;
     v_constraints :=
       if existsb sc_primary_key (get_columns sel) then []
       else [PrimaryKeyConstraint (sc_name <$> get_columns sel)];
     dialect_options := kwargs; _selectable := sel;
     _materialized := mat; _replace := rep; v_attrs := ∅ |}.

Definition empty_metadata : MetaData :=
  {| tables := []; after_create := []; before_drop := [] |}.

(** The store that [create_view_from_selectable] leaves behind. *)
Definition after_create_view_from_selectable (name : string) (sel : Selectable)
    (indexes : option (list Index)) (metadata : option nat)
    (aliases : option (gmap string string)) (mat rep : bool)
    (kwargs : dialect_kwargs) (w : World) : World :=
  let m := default (length (metadatas w)) metadata in
  {| visit_name := visit_name w;
     views := views w ++ [derived_view name m sel (default [] indexes)
                            (default ∅ aliases) mat rep kwargs];
     metadatas :=
       alter (add_table (ViewRef (length (views w)))) m
         (match metadata with
          | None => metadatas w ++ [empty_metadata]
          | Some _ => metadatas w
          end);
     calls := calls w; database := database w; kw_registry := kw_registry w |}.

(** The three listeners that the factories attach to [metadata]. *)
Definition with_hooks (metadata view : nat) (w : World) : World :=
  set_metadatas
    (alter (add_before_drop (hook_drop_view view)) metadata
       (alter (add_after_create (hook_create_indexes view)) metadata
          (alter (add_after_create (hook_create_view view)) metadata (metadatas w))))
    w.

(** A computation that leaves the dispatch tag at "table" when it finds it
    there, whether it returns or raises. *)
Definition keeps_table_tag {A} (m : M A) : Prop :=
  forall w, visit_name w = "table" -> visit_name (m w).2 = "table".

(** A computation that does not touch the dispatch tag. *)
Definition keeps_tag {A} (m : M A) : Prop :=
  forall w, visit_name (m w).2 = visit_name w.

(** [view] is the view that one of the two hook-wiring factories returned
    when it took the store from [w] to [w'], for the caller's container
    [metadata]. *)
Inductive produced_by_factory (metadata : nat) (w : World) (view : nat) (w' : World) : Prop :=
  | by_create_view name sel cascade_on_drop rep kwargs :
      create_view name sel metadata cascade_on_drop rep kwargs w = (Ok view, w') ->
      produced_by_factory metadata w view w'
  | by_create_materialized_view name sel indexes aliases kwargs :
      create_materialized_view name sel metadata indexes aliases kwargs w = (Ok view, w') ->
      produced_by_factory metadata w view w'.

(** Every reference in the store points to an object of the store. *)
Definition table_ref_ok (w : World) (t : TableRef) : Prop :=
  match t with
  | BaseTable _ => True
  | ViewRef view => (view < length (views w))%nat
  end.

Definition well_formed (w : World) : Prop :=
  forall m md, metadatas w !! m = Some md -> Forall (table_ref_ok w) (tables md).

Definition is_base_table (t : TableRef) : bool :=
  match t with BaseTable _ => true | ViewRef _ => false end.

Definition base_table (t : TableRef) : option Table :=
  match t with BaseTable tb => Some tb | ViewRef _ => None end.

(** One operation of the module, or of a caller on the objects it returned,
    takes the store from [w] to [w']. *)
Inductive step (w w' : World) : Prop :=
  | step_create_view_from_selectable name sel indexes metadata aliases mat rep kwargs r :
      create_view_from_selectable name sel indexes metadata aliases mat rep kwargs w = (r, w') ->
      step w w'
  | step_create_view name sel metadata cascade_on_drop rep kwargs r :
      create_view name sel metadata cascade_on_drop rep kwargs w = (r, w') -> step w w'
  | step_create_materialized_view name sel metadata indexes aliases kwargs r :
      create_materialized_view name sel metadata indexes aliases kwargs w = (r, w') ->
      step w w'
  | step_View_create_view self conn checkfirst r :
      View_create_view self conn checkfirst w = (r, w') -> step w w'
  | step_View_drop_view self conn checkfirst r :
      View_drop_view self conn checkfirst w = (r, w') -> step w w'
  | step_refresh session name concurrently r :
      refresh_materialized_view session name concurrently w = (r, w') -> step w w'
  | step_create_all metadata conn r :
      MetaData_create_all metadata conn w = (r, w') -> step w w'
  | step_drop_all metadata conn r :
      MetaData_drop_all metadata conn w = (r, w') -> step w w'
  | step_new_metadata r :
      MetaData_new w = (r, w') -> step w w'
  | step_setattr view attr x r :
      update_view view (setattr attr x) w = (r, w') -> step w w'
  | step_registry r :
      w' = set_registry r w -> step w w'.

Inductive reachable : World -> Prop :=
  | reachable_initial : reachable initial_world
  | reachable_step w w' : reachable w -> step w w' -> reachable w'.

(** ** The setters of the view

    [view.selectable = value], [view.materialized = value] and
    [view.replace = value]: each assigns the private attribute and nothing
    else. *)

Definition set_selectable (value : Selectable) (v : View) : View :=
  {| v_name := v_name v; v_metadata := v_metadata v; v_columns := v_columns v;
     v_indexes := v_indexes v; v_constraints := v_constraints v;
     dialect_options := dialect_options v; _selectable := value;
     _materialized := _materialized v; _replace := _replace v;
     v_attrs := v_attrs v |}.

Definition set_materialized (value : bool) (v : View) : View :=
  {| v_name := v_name v; v_metadata := v_metadata v; v_columns := v_columns v;
     v_indexes := v_indexes v; v_constraints := v_constraints v;
     dialect_options := dialect_options v; _selectable := _selectable v;
     _materialized := value; _replace := _replace v;
     v_attrs := v_attrs v |}.

Definition set_replace (value : bool) (v : View) : View :=
  {| v_name := v_name v; v_metadata := v_metadata v; v_columns := v_columns v;
     v_indexes := v_indexes v; v_constraints := v_constraints v;
     dialect_options := dialect_options v; _selectable := _selectable v;
     _materialized := _materialized v; _replace := value;
     v_attrs := v_attrs v |}.

Definition View_set_selectable (self : nat) (value : Selectable) : M unit :=
  update_view self (set_selectable value).

Definition View_set_materialized (self : nat) (value : bool) : M unit :=
  update_view self (set_materialized value).

Definition View_set_replace (self : nat) (value : bool) : M unit :=
  update_view self (set_replace value).

(** A database that refuses every CREATE VIEW and CREATE MATERIALIZED VIEW
    and runs the rest. *)
Definition refusing_views (compiler : Compiler) : Connection :=
  {| conn_compiler := compiler;
     conn_refuses := fun _ sql =>
       if String.prefix "CREATE VIEW" sql || String.prefix "CREATE MATERIALIZED" sql
       then Some (ExecutionError sql) else None |}.

(** * Properties *)

(** ** Evaluation on the sample inputs *)

Example create_view_plain :
  compile_create_materialized_view
    {| cv_element := plain_view "v1" false false ∅; if_not_exists := false |} postgresql
  = "CREATE VIEW " +:+ dq +:+ "v1" +:+ dq +:+ " AS SELECT t.id FROM t".
Proof. reflexivity. Qed.

Example create_view_fillfactor :
  compile_create_materialized_view
    {| cv_element := plain_view "v1" true false fillfactor_70; if_not_exists := false |}
    postgresql
  = "CREATE MATERIALIZED VIEW " +:+ dq +:+ "v1" +:+ dq
      +:+ " WITH (fillfactor = 70) AS SELECT t.id FROM t".
Proof. vm_compute. reflexivity. Qed.

Example drop_view_cascade :
  compile_drop_materialized_view
    {| dv_element := setattr "cascade" (PyBool true) (plain_view "v1" true false ∅);
       if_exists := false |} postgresql
  = Ok ("DROP MATERIALIZED VIEW IF EXISTS " +:+ dq +:+ "v1" +:+ dq +:+ " CASCADE").
Proof. vm_compute. reflexivity. Qed.

Example drop_view_no_cascade :
  compile_drop_materialized_view
    {| dv_element := setattr "cascade" (PyBool false) (plain_view "v1" true false ∅);
       if_exists := true |} postgresql
  = Ok ("DROP MATERIALIZED VIEW IF EXISTS " +:+ dq +:+ "v1" +:+ dq +:+ " ").
Proof. vm_compute. reflexivity. Qed.

(** ** The CREATE VIEW compiler *)

Lemma append_assoc (a b c : string) : (a +:+ b) +:+ c = a +:+ b +:+ c.
Proof.
  induction a as [|x a IH]; [done|].
  change (String x ((a +:+ b) +:+ c) = String x (a +:+ b +:+ c)).
  by f_equal.
Qed.

Lemma concat_parameter_list (items : storage_parameters) :
  String.concat ", " (storage_parameter_text <$> items) = parameter_list items.
Proof.
  induction items as [|[k v] rest IH]; [done|].
  destruct rest as [|q rest]; [done|].
  change (storage_parameter_text (k, v) +:+ ", "
            +:+ String.concat ", " (storage_parameter_text <$> q :: rest)
          = k +:+ " = " +:+ py_str v +:+ ", " +:+ parameter_list (q :: rest)).
  rewrite IH. unfold storage_parameter_text. cbn [fst snd].
  by rewrite !append_assoc.
Qed.

Lemma withclause_postgresql_with (element : View) :
  withclause element = default [] (postgresql_with element).
Proof.
  unfold withclause, postgresql_with.
  destruct (dialect_options element !! "postgresql") as [namespace|]; simpl.
  - by destruct (namespace !! "with") as [[|p ps]|].
  - by rewrite lookup_empty.
Qed.

(** C1, as amended: the text of CREATE VIEW.  The WITH clause is there
    exactly when the option bag of the view holds a non-empty mapping under
    "postgresql" / "with", and the dialect that compiles the statement has no
    say in it: only its quoting rule and its query renderer are used.  The
    query is rendered with [literal_binds] on. *)
Theorem compile_create_view_text (create : CreateView) (compiler : Compiler) :
  let element := cv_element create in
  compile_create_materialized_view create compiler =
    "CREATE "
      +:+ (if replace element then "OR REPLACE " else EmptyString)
      +:+ (if materialized element then "MATERIALIZED " else EmptyString)
      +:+ "VIEW " +:+ quote compiler (v_name element)
      +:+ match postgresql_with element with
          | Some items => " WITH (" +:+ parameter_list items +:+ ")"
          | None => EmptyString
          end
      +:+ " AS " +:+ process compiler (selectable element) true.
Proof.
  intros element. unfold compile_create_materialized_view. fold element.
  do 5 f_equal.
  unfold withclause_text, withclause, postgresql_with.
  destruct (dialect_options element !! "postgresql") as [namespace|].
  - cbn [default from_option id].
    destruct (namespace !! "with") as [[|p ps]|]; try done.
    by rewrite <- concat_parameter_list.
  - cbn [default from_option id]. by rewrite lookup_empty.
Qed.

(** C1, as stated, fails: a view that carries PostgreSQL storage parameters
    gets its WITH clause on any dialect, here on SQLite. *)
Lemma with_clause_on_other_dialect :
  let create := {| cv_element := plain_view "v1" true false fillfactor_70;
                   if_not_exists := false |} in
  dialect_name sqlite <> "postgresql"
  /\ compile_create_materialized_view create sqlite
     = "CREATE MATERIALIZED VIEW " +:+ dq +:+ "v1" +:+ dq
         +:+ " WITH (fillfactor = 70) AS SELECT t.id FROM t"
  /\ compile_create_materialized_view create sqlite
     <> "CREATE MATERIALIZED VIEW " +:+ dq +:+ "v1" +:+ dq
          +:+ " AS SELECT t.id FROM t".
Proof.
  split; [discriminate|]. split; [by vm_compute|].
  vm_compute. discriminate.
Qed.

(** Options filed under another dialect do not produce the clause. *)
Lemma no_with_clause_without_postgresql_options (create : CreateView) :
  dialect_options (cv_element create) !! "postgresql" = None ->
  postgresql_with (cv_element create) = None.
Proof. unfold postgresql_with. by intros ->. Qed.

(** ** Construction *)

Lemma item_columns_args (cols : list Column) (idxs : list Index) :
  item_columns ((ItemColumn <$> cols) ++ (ItemIndex <$> idxs)) = cols.
Proof.
  unfold item_columns. rewrite omap_app.
  assert (omap (fun i => match i with ItemColumn c => Some c | _ => None end)
            (ItemIndex <$> idxs) = []) as ->
    by (induction idxs; simpl; auto).
  rewrite app_nil_r. induction cols; simpl; [done | by f_equal].
Qed.

Lemma item_indexes_args (cols : list Column) (idxs : list Index) :
  item_indexes ((ItemColumn <$> cols) ++ (ItemIndex <$> idxs)) = idxs.
Proof.
  unfold item_indexes. rewrite omap_app.
  assert (omap (fun i => match i with ItemIndex x => Some x | _ => None end)
            (ItemColumn <$> cols) = []) as ->
    by (induction cols; simpl; auto).
  simpl. induction idxs; simpl; [done | by f_equal].
Qed.

Lemma item_constraints_args (cols : list Column) (idxs : list Index) :
  item_constraints ((ItemColumn <$> cols) ++ (ItemIndex <$> idxs)) = [].
Proof.
  unfold item_constraints. rewrite omap_app.
  assert (omap (fun i => match i with ItemConstraint c => Some c | _ => None end)
            (ItemColumn <$> cols) = []) as ->
    by (induction cols; simpl; auto).
  simpl. induction idxs; simpl; auto.
Qed.

Lemma alter_last {A} (f : A -> A) (l : list A) (x : A) :
  alter f (length l) (l ++ [x]) = l ++ [f x].
Proof. induction l as [|y l IH]; simpl; [done | by f_equal]. Qed.

Lemma bind_ok {A B} (m : M A) (k : A -> M B) (w w1 : World) (a : A) :
  m w = (Ok a, w1) -> bind m k w = k a w1.
Proof. unfold bind. by intros ->. Qed.

Lemma bind_err {A B} (m : M A) (k : A -> M B) (w w1 : World) (e : py_error) :
  m w = (Err e, w1) -> bind m k w = (Err e, w1).
Proof. unfold bind. by intros ->. Qed.

Lemma bind_inv_ok {A B} (m : M A) (k : A -> M B) (w w' : World) (b : B) :
  bind m k w = (Ok b, w') ->
  exists a w1, m w = (Ok a, w1) /\ k a w1 = (Ok b, w').
Proof.
  unfold bind. destruct (m w) as [[a|e] w1]; [eauto | discriminate].
Qed.

(** The store after a table has been registered. *)
Lemma Table_init_inv (name : string) (metadata : nat) (args : list SchemaItem)
    (kwargs : dialect_kwargs) (sel : Selectable) (mat rep : bool)
    (w w' : World) (self : nat) :
  Table_init name metadata args kwargs sel mat rep w = (Ok self, w') ->
  has_table w metadata name = false
  /\ kwargs_accepted (kw_registry w) kwargs = true
  /\ self = length (views w)
  /\ w' = set_metadatas (alter (add_table (ViewRef self)) metadata (metadatas w))
            (set_views
               (views w ++ [{| v_name := name; v_metadata := metadata;
                               v_columns := item_columns args;
                               v_indexes := list_to_set (item_indexes args);
                               v_constraints := item_constraints args;
                               dialect_options := kwargs; _selectable := sel;
                               _materialized := mat; _replace := rep; v_attrs := ∅ |}])
               w).
Proof.
  unfold Table_init.
  destruct (has_table w metadata name); [discriminate|].
  destruct (kwargs_accepted (kw_registry w) kwargs); [|discriminate].
  cbn. by intros [= <- <-].
Qed.

Lemma View_init_inv (name : string) (metadata : nat) (sel : Selectable)
    (mat rep : bool) (args : list SchemaItem) (kwargs : dialect_kwargs)
    (w w' : World) (self : nat) :
  View_init name metadata sel mat rep args kwargs w = (Ok self, w') ->
  mat && rep = false
  /\ Table_init name metadata args kwargs sel mat rep w = (Ok self, w').
Proof.
  unfold View_init. intros (self' & w1 & Htable & Hrest)%bind_inv_ok.
  destruct (mat && rep).
  - unfold bind, modify, raise in Hrest. discriminate.
  - by injection Hrest as <- <-.
Qed.

(** C4, as amended: with both flags set the construction of a view never
    returns, and raises [ValueError] unless the toolkit has refused the
    arguments first; with any other combination [View.__init__] adds no
    failure of its own, and the construction returns exactly when the table
    initialiser of the toolkit does.  The toolkit refuses a name that the
    container already holds and a dialect keyword argument that is not
    registered. *)
Theorem View_init_flags (name : string) (metadata : nat) (sel : Selectable)
    (args : list SchemaItem) (kwargs : dialect_kwargs) (w : World) :
  is_ok (View_init name metadata sel true true args kwargs w).1 = false
  /\ (is_ok (Table_init name metadata args kwargs sel true true w).1 = true ->
      (View_init name metadata sel true true args kwargs w).1
      = Err (ValueError "Cannot use CREATE OR REPLACE with materialized views"))
  /\ (forall mat rep : bool,
        mat && rep = false ->
        View_init name metadata sel mat rep args kwargs w
        = Table_init name metadata args kwargs sel mat rep w)
  /\ (forall mat rep : bool,
        has_table w metadata name = true ->
        (View_init name metadata sel mat rep args kwargs w).1
        = Err (InvalidRequestError name))
  /\ (forall mat rep : bool,
        has_table w metadata name = false ->
        kwargs_accepted (kw_registry w) kwargs = false ->
        (View_init name metadata sel mat rep args kwargs w).1
        = Err (ArgumentError "Argument is not accepted by the dialect")).
Proof.
  unfold View_init, bind, Table_init.
  destruct (has_table w metadata name) eqn:Hdup;
    destruct (kwargs_accepted (kw_registry w) kwargs) eqn:Hkw; cbn;
    repeat split; try done; intros mat rep; try done;
    intros Hflags; rewrite ?Hflags; done.
Qed.

Lemma View_init_flags_witness :
  View_init "v1" 0 users_query false true [] ∅ one_table_world
  = Table_init "v1" 0 [] ∅ users_query false true one_table_world
  /\ (View_init "v1" 0 users_query false true [] ∅ one_table_world).1 = Ok 0%nat
  /\ (View_init "v1" 0 users_query true true [] ∅ one_table_world).1
     = Err (ValueError "Cannot use CREATE OR REPLACE with materialized views").
Proof.
  destruct (View_init_flags "v1" 0 users_query [] ∅ one_table_world)
    as (_ & Hboth & Hother & _).
  split; [exact (Hother false true eq_refl)|].
  split; [rewrite (Hother false true eq_refl); reflexivity|].
  exact (Hboth eq_refl).
Defined.

(** C4, as stated, fails: the toolkit refuses a view whose name the
    container already holds, whatever the flags are. *)
Lemma view_construction_refused_by_toolkit :
  (View_init "users" 0 users_query false false [] ∅ one_table_world).1
    = Err (InvalidRequestError "users")
  /\ (View_init "users" 0 users_query true true [] ∅ one_table_world).1
     = Err (InvalidRequestError "users")
  /\ (View_init "v1" 0 users_query false false [] fillfactor_70 one_table_world).1
     = Err (ArgumentError "Argument is not accepted by the dialect").
Proof. repeat split; by vm_compute. Qed.

(** The flags of a constructed view are the ones it was given. *)
Lemma View_init_stores_flags (name : string) (metadata : nat) (sel : Selectable)
    (mat rep : bool) (args : list SchemaItem) (kwargs : dialect_kwargs)
    (w w' : World) (self : nat) :
  View_init name metadata sel mat rep args kwargs w = (Ok self, w') ->
  exists v, views w' !! self = Some v
    /\ selectable v = sel /\ materialized v = mat /\ replace v = rep
    /\ v_attrs v = ∅.
Proof.
  intros (_ & (_ & _ & -> & ->)%Table_init_inv)%View_init_inv. cbn.
  rewrite lookup_app_r by lia. rewrite Nat.sub_diag. cbn. eauto 10.
Qed.

Lemma find_negb_forallb {A} (P : A -> bool) (l : list A) :
  List.find (fun x => negb (P x)) l = None <-> forallb P l = true.
Proof.
  induction l as [|x l IH]; cbn; [done|].
  destruct (P x); cbn; [exact IH | split; discriminate].
Qed.


Lemma has_table_fresh (w : World) (name : string) :
  has_table (set_metadatas (metadatas w ++ [empty_metadata]) w)
    (length (metadatas w)) name = false.
Proof.
  unfold has_table. cbn. by rewrite list_lookup_middle.
Qed.

Lemma lookup_new_view name sel indexes metadata aliases mat rep kwargs w :
  views (after_create_view_from_selectable name sel indexes metadata aliases mat rep kwargs w)
    !! length (views w)
  = Some (derived_view name (default (length (metadatas w)) metadata) sel
            (default [] indexes) (default ∅ aliases) mat rep kwargs).
Proof. cbn. rewrite lookup_app_r by lia. by rewrite Nat.sub_diag. Qed.

(** What [create_view_from_selectable] has done when it returns a view. *)
Lemma create_view_from_selectable_inv (name : string) (sel : Selectable)
    (indexes : option (list Index)) (metadata : option nat)
    (aliases : option (gmap string string)) (mat rep : bool)
    (kwargs : dialect_kwargs) (w w' : World) (view : nat) :
  create_view_from_selectable name sel indexes metadata aliases mat rep kwargs w
    = (Ok view, w') ->
  view = length (views w)
  /\ w' = after_create_view_from_selectable name sel indexes metadata aliases mat rep
            kwargs w
  /\ construction_accepted name metadata mat rep kwargs w = true
  /\ (existsb sc_primary_key (get_columns sel) = false ->
      names_are_keys (default ∅ aliases) sel = true).
Proof.
  unfold create_view_from_selectable.
  intros (m & w1 & Hmeta & H)%bind_inv_ok.
  apply bind_inv_ok in H as (view' & w2 & Hinit & H).
  apply bind_inv_ok in H as ([] & w3 & Hpk & H).
  injection H as <- <-.
  apply View_init_inv in Hinit as (Hflags & Hinit).
  apply Table_init_inv in Hinit as (Hdup & Hkw & -> & ->).
  rewrite item_columns_args, item_indexes_args, item_constraints_args in Hpk.
  assert (views w1 = views w /\ kw_registry w1 = kw_registry w
          /\ visit_name w1 = visit_name w /\ calls w1 = calls w
          /\ database w1 = database w
          /\ m = default (length (metadatas w)) metadata
          /\ metadatas w1 = match metadata with
                            | None => metadatas w ++ [empty_metadata]
                            | Some _ => metadatas w
                            end
          /\ construction_accepted name metadata mat rep kwargs w = true)
    as (Hviews & Hreg & Htag & Hcalls & Hdb & -> & Hmds & Haccepted).
  { unfold construction_accepted. rewrite Hflags. cbn.
    destruct metadata as [m0|]; cbn in Hmeta.
    - injection Hmeta as <- <-. repeat split; try done.
      by rewrite Hkw, Hdup.
    - unfold MetaData_new in Hmeta. injection Hmeta as <- <-. repeat split; try done.
      cbn in Hkw. by rewrite Hkw. }
  rewrite Hviews in *.
  unfold after_create_view_from_selectable, derived_view.
  destruct (existsb sc_primary_key (get_columns sel)) eqn:Hkey; cbn in Hpk.
  - injection Hpk as <-. split; [done|]. split; [|done].
    unfold set_metadatas, set_views. cbn.
    by rewrite Hreg, Htag, Hcalls, Hdb, Hmds.
  - unfold View_append_constraint, bind, deref_view in Hpk. cbn in Hpk.
    rewrite lookup_app_r, Nat.sub_diag in Hpk by lia. cbn in Hpk.
    destruct (List.find _ _) as [missing|] eqn:Hfind; [discriminate|].
    apply find_negb_forallb in Hfind.
    cbn in Hpk. injection Hpk as <-. split; [done|]. split; [|by split].
    unfold set_metadatas, set_views. cbn.
    by rewrite alter_last, Hreg, Htag, Hcalls, Hdb, Hmds.
Qed.

Lemma existsb_false_Forall (l : list SourceColumn) :
  Forall (fun c => sc_primary_key c = false) l -> existsb sc_primary_key l = false.
Proof. induction 1 as [|c l Hc _ IH]; simpl; [done | by rewrite Hc, IH]. Qed.

Lemma primary_key_columns_derived (aliases : gmap string string) (l : list SourceColumn) :
  col_name <$> List.filter col_primary_key (derive_column aliases <$> l)
  = sc_name <$> List.filter sc_primary_key l.
Proof.
  induction l as [|c l IH]; [done|].
  cbn. destruct (sc_primary_key c); cbn; by rewrite IH.
Qed.


Lemma derived_keys (aliases : gmap string string) (cols : list SourceColumn) :
  col_key <$> (derive_column aliases <$> cols)
  = (fun n => default n (aliases !! n)) <$> (sc_name <$> cols).
Proof. induction cols as [|c cols IH]; cbn; [done | by rewrite IH]. Qed.




Lemma names_are_keys_no_aliases (sel : Selectable) :
  names_are_keys ∅ sel = true.
Proof.
  unfold names_are_keys. apply forallb_forall. intros n Hn.
  apply bool_decide_eq_true_2. rewrite derived_keys.
  apply list_elem_of_In in Hn.
  assert ((fun n : string => default n ((∅ : gmap string string) !! n))
            <$> (sc_name <$> get_columns sel) = sc_name <$> get_columns sel) as ->; [|done].
  clear Hn. induction (sc_name <$> get_columns sel) as [|x l IH]; [done|].
  cbn. rewrite lookup_empty. cbn. by f_equal.
Qed.

Lemma Table_init_run (name : string) (metadata : nat) (args : list SchemaItem)
    (kwargs : dialect_kwargs) (sel : Selectable) (mat rep : bool) (w : World) :
  has_table w metadata name = false ->
  kwargs_accepted (kw_registry w) kwargs = true ->
  Table_init name metadata args kwargs sel mat rep w
  = (Ok (length (views w)),
     set_metadatas (alter (add_table (ViewRef (length (views w)))) metadata (metadatas w))
       (set_views
          (views w ++ [{| v_name := name; v_metadata := metadata;
                          v_columns := item_columns args;
                          v_indexes := list_to_set (item_indexes args);
                          v_constraints := item_constraints args;
                          dialect_options := kwargs; _selectable := sel;
                          _materialized := mat; _replace := rep; v_attrs := ∅ |}])
          w)).
Proof. unfold Table_init. by intros -> ->. Qed.

Lemma View_init_run (name : string) (metadata : nat) (sel : Selectable)
    (mat rep : bool) (args : list SchemaItem) (kwargs : dialect_kwargs) (w : World) :
  mat && rep = false ->
  has_table w metadata name = false ->
  kwargs_accepted (kw_registry w) kwargs = true ->
  View_init name metadata sel mat rep args kwargs w
  = Table_init name metadata args kwargs sel mat rep w
  /\ is_ok (View_init name metadata sel mat rep args kwargs w).1 = true.
Proof.
  intros Hflags Hdup Hkw. unfold View_init.
  erewrite bind_ok by (by apply Table_init_run).
  rewrite Hflags. by rewrite Table_init_run.
Qed.

(** The store before the view is constructed: the container is the one
    passed in, or a new one. *)
Lemma container_for_view (name : string) (metadata : option nat) (mat rep : bool)
    (kwargs : dialect_kwargs) (w : World) :
  construction_accepted name metadata mat rep kwargs w = true ->
  let w1 := match metadata with
            | None => set_metadatas (metadatas w ++ [empty_metadata]) w
            | Some _ => w
            end in
  match metadata with
  | None => MetaData_new
  | Some m => ret m
  end w = (Ok (default (length (metadatas w)) metadata), w1)
  /\ mat && rep = false
  /\ has_table w1 (default (length (metadatas w)) metadata) name = false
  /\ kwargs_accepted (kw_registry w1) kwargs = true.
Proof.
  unfold construction_accepted.
  intros [[Hflags%negb_true_iff Hkw]%andb_true_iff Hdup]%andb_true_iff.
  destruct metadata as [m|]; cbn.
  - by apply negb_true_iff in Hdup.
  - repeat split; try done. apply has_table_fresh.
Qed.

(** [create_view_from_selectable] returns a view when the construction is
    accepted and, for a selectable without a flagged column, every column
    name is the key of some column. *)
Lemma create_view_from_selectable_run (name : string) (sel : Selectable)
    (indexes : option (list Index)) (metadata : option nat)
    (aliases : option (gmap string string)) (mat rep : bool)
    (kwargs : dialect_kwargs) (w : World) :
  construction_accepted name metadata mat rep kwargs w = true ->
  (existsb sc_primary_key (get_columns sel) = false ->
   names_are_keys (default ∅ aliases) sel = true) ->
  create_view_from_selectable name sel indexes metadata aliases mat rep kwargs w
  = (Ok (length (views w)),
     after_create_view_from_selectable name sel indexes metadata aliases mat rep kwargs w).
Proof.
  intros (Hmeta & Hflags & Hdup & Hkw)%container_for_view Hkeys.
  unfold create_view_from_selectable.
  erewrite bind_ok by exact Hmeta.
  destruct (View_init_run name (default (length (metadatas w)) metadata) sel mat rep
              ((ItemColumn <$> (derive_column (default ∅ aliases) <$> get_columns sel))
                 ++ (ItemIndex <$> default [] indexes))
              kwargs _ Hflags Hdup Hkw) as [Hinit _].
  erewrite bind_ok
    by (cbn zeta; rewrite Hinit; by apply Table_init_run).
  rewrite item_columns_args, item_indexes_args, item_constraints_args.
  unfold after_create_view_from_selectable, derived_view.
  destruct (existsb sc_primary_key (get_columns sel)) eqn:Hkey; cbn [negb].
  - unfold bind, ret. f_equal; by destruct metadata.
  - specialize (Hkeys eq_refl). apply find_negb_forallb in Hkeys.
    unfold View_append_constraint, bind, deref_view, ret.
    destruct metadata as [m|]; cbn;
      rewrite lookup_app_r, Nat.sub_diag by lia; cbn;
      rewrite Hkeys; cbn; f_equal; unfold set_views, set_metadatas; cbn;
      by rewrite alter_last.
Qed.











(** ** The factories *)

(** The listeners are attached to the container once the view exists. *)
Lemma hook_wiring (metadata view : nat) (w : World) :
  (listens_for_after_create metadata (hook_create_view view) ;;
   listens_for_after_create metadata (hook_create_indexes view) ;;
   listens_for_before_drop metadata (hook_drop_view view) ;;
   ret view) w
  = (Ok view, with_hooks metadata view w).
Proof. reflexivity. Qed.

Lemma create_view_run (name : string) (sel : Selectable) (metadata : nat)
    (cascade_on_drop rep : bool) (kwargs : ViewKwargs) (w : World) :
  construction_accepted name None (default false (kw_materialized kwargs)) rep
    (kw_dialect kwargs) w = true ->
  (existsb sc_primary_key (get_columns sel) = false ->
   names_are_keys (default ∅ (kw_aliases kwargs)) sel = true) ->
  create_view name sel metadata cascade_on_drop rep kwargs w
  = (Ok (length (views w)),
     with_hooks metadata (length (views w))
       (after_create_view_from_selectable name sel (kw_indexes kwargs) None
          (kw_aliases kwargs) (default false (kw_materialized kwargs)) rep
          (kw_dialect kwargs) w)).
Proof.
  intros Haccepted Hkeys. unfold create_view.
  erewrite bind_ok by (by apply create_view_from_selectable_run).
  apply hook_wiring.
Qed.

Lemma create_view_inv (name : string) (sel : Selectable) (metadata : nat)
    (cascade_on_drop rep : bool) (kwargs : ViewKwargs) (w w' : World) (view : nat) :
  create_view name sel metadata cascade_on_drop rep kwargs w = (Ok view, w') ->
  view = length (views w)
  /\ w' = with_hooks metadata view
            (after_create_view_from_selectable name sel (kw_indexes kwargs) None
               (kw_aliases kwargs) (default false (kw_materialized kwargs)) rep
               (kw_dialect kwargs) w)
  /\ construction_accepted name None (default false (kw_materialized kwargs)) rep
       (kw_dialect kwargs) w = true.
Proof.
  unfold create_view. intros (view' & w1 & Hview & Hhooks)%bind_inv_ok.
  rewrite hook_wiring in Hhooks. injection Hhooks as <- <-.
  apply create_view_from_selectable_inv in Hview as (-> & -> & Haccepted & _).
  done.
Qed.

Lemma create_view_raises (name : string) (sel : Selectable) (metadata : nat)
    (cascade_on_drop rep : bool) (kwargs : ViewKwargs) (w : World) :
  default false (kw_materialized kwargs) && rep = true ->
  is_ok (create_view name sel metadata cascade_on_drop rep kwargs w).1 = false.
Proof.
  intros Hflags.
  destruct (create_view name sel metadata cascade_on_drop rep kwargs w)
    as [[view|e] w'] eqn:Hrun; [|done].
  apply create_view_inv in Hrun as (_ & _ & Haccepted).
  unfold construction_accepted in Haccepted. by rewrite Hflags in Haccepted.
Qed.

Lemma create_materialized_view_run (name : string) (sel : Selectable) (metadata : nat)
    (indexes : option (list Index)) (aliases : option (gmap string string))
    (kwargs : dialect_kwargs) (w : World) :
  kwargs_accepted (kw_registry w) kwargs = true ->
  (existsb sc_primary_key (get_columns sel) = false ->
   names_are_keys (default ∅ aliases) sel = true) ->
  create_materialized_view name sel metadata indexes aliases kwargs w
  = (Ok (length (views w)),
     with_hooks metadata (length (views w))
       (after_create_view_from_selectable name sel indexes None aliases true false
          kwargs w)).
Proof.
  intros Hkw Hkeys. unfold create_materialized_view.
  erewrite bind_ok
    by (apply create_view_from_selectable_run;
        [unfold construction_accepted; by rewrite Hkw | done]).
  apply hook_wiring.
Qed.

Lemma create_materialized_view_inv (name : string) (sel : Selectable) (metadata : nat)
    (indexes : option (list Index)) (aliases : option (gmap string string))
    (kwargs : dialect_kwargs) (w w' : World) (view : nat) :
  create_materialized_view name sel metadata indexes aliases kwargs w = (Ok view, w') ->
  view = length (views w)
  /\ w' = with_hooks metadata view
            (after_create_view_from_selectable name sel indexes None aliases true false
               kwargs w).
Proof.
  unfold create_materialized_view. intros (view' & w1 & Hview & Hhooks)%bind_inv_ok.
  rewrite hook_wiring in Hhooks. injection Hhooks as <- <-.
  by apply create_view_from_selectable_inv in Hview as (-> & -> & _).
Qed.

(** What a factory returns, and the store it leaves behind. *)
Lemma produced_by_factory_inv (metadata : nat) (w : World) (view : nat) (w' : World) :
  produced_by_factory metadata w view w' ->
  view = length (views w)
  /\ exists name sel indexes aliases mat rep kwargs,
       w' = with_hooks metadata view
              (after_create_view_from_selectable name sel indexes None aliases
                 mat rep kwargs w).
Proof.
  intros [name sel cascade_on_drop rep kwargs H | name sel indexes aliases kwargs H].
  - apply create_view_inv in H as (-> & -> & _). split; [done|]. eauto 10.
  - apply create_materialized_view_inv in H as (-> & ->). split; [done|]. eauto 10.
Qed.

Lemma produced_view (metadata : nat) (w : World) (view : nat) (w' : World) :
  produced_by_factory metadata w view w' ->
  exists v, views w' !! view = Some v
    /\ v_attrs v = ∅
    /\ v_metadata v = length (metadatas w).
Proof.
  intros (-> & name & sel & indexes & aliases & mat & rep & kwargs & ->)%produced_by_factory_inv.
  eexists. split; [apply lookup_new_view|]. done.
Qed.

(** ** The DROP VIEW compiler *)

(** With a [cascade] attribute on the view, the text is the one of the
    template: a space follows the name, then CASCADE when the attribute is
    true.  IF EXISTS is always there. *)
Lemma compile_drop_view_text (create : DropView) (compiler : Compiler) (cascade : py_value) :
  v_attrs (dv_element create) !! "cascade" = Some cascade ->
  compile_drop_materialized_view create compiler
  = Ok ("DROP "
          +:+ (if materialized (dv_element create) then "MATERIALIZED " else EmptyString)
          +:+ "VIEW IF EXISTS " +:+ quote compiler (v_name (dv_element create))
          +:+ " " +:+ (if truthy cascade then "CASCADE" else EmptyString)).
Proof.
  intros H. unfold compile_drop_materialized_view, getattr. by rewrite H.
Qed.

(** The [if_exists] flag of the statement is not consulted. *)
Lemma compile_drop_view_ignores_if_exists (element : View) (flag flag' : bool)
    (compiler : Compiler) :
  compile_drop_materialized_view {| dv_element := element; if_exists := flag |} compiler
  = compile_drop_materialized_view {| dv_element := element; if_exists := flag' |} compiler.
Proof. reflexivity. Qed.

Lemma compile_drop_view_without_cascade (create : DropView) (compiler : Compiler) :
  v_attrs (dv_element create) !! "cascade" = None ->
  compile_drop_materialized_view create compiler = Err (AttributeError "cascade").
Proof.
  intros H. unfold compile_drop_materialized_view, getattr. by rewrite H.
Qed.

(** C2, on the code: no constructor of the module gives a view a [cascade]
    attribute, so for a view as [View.__init__] builds it the DROP compiler
    raises [AttributeError] where the claim promises a statement, whatever
    the [if_exists] flag and the dialect. *)
Theorem compile_drop_view_of_constructed_view (name : string) (metadata : nat)
    (sel : Selectable) (mat rep : bool) (args : list SchemaItem)
    (kwargs : dialect_kwargs) (w w' : World) (self : nat) :
  View_init name metadata sel mat rep args kwargs w = (Ok self, w') ->
  exists v, views w' !! self = Some v
    /\ forall (flag : bool) (compiler : Compiler),
         compile_drop_materialized_view {| dv_element := v; if_exists := flag |} compiler
         = Err (AttributeError "cascade").
Proof.
  intros (v & Hv & _ & _ & _ & Hattrs)%View_init_stores_flags.
  exists v. split; [done|]. intros flag compiler.
  apply compile_drop_view_without_cascade. cbn. by rewrite Hattrs, lookup_empty.
Qed.

Lemma compile_drop_view_of_constructed_view_witness :
  exists v, views (View_init "v1" 0 users_query true false [] ∅ one_table_world).2 !! 0%nat
            = Some v
    /\ forall (flag : bool) (compiler : Compiler),
         compile_drop_materialized_view {| dv_element := v; if_exists := flag |} compiler
         = Err (AttributeError "cascade").
Proof.
  exact (compile_drop_view_of_constructed_view "v1" 0 users_query true false [] ∅
           one_table_world _ 0%nat eq_refl).
Defined.

(** C3: [create_view] does not look at [cascade_on_drop]; a view that either
    factory returns has no [cascade] attribute, and the DROP compiler raises
    [AttributeError] on it instead of rendering a statement. *)
Theorem factory_view_has_no_cascade :
  (forall name sel metadata rep kwargs,
     create_view name sel metadata true rep kwargs
     = create_view name sel metadata false rep kwargs)
  /\ (forall (metadata : nat) (w : World) (view : nat) (w' : World),
        produced_by_factory metadata w view w' ->
        exists v, views w' !! view = Some v
          /\ v_attrs v !! "cascade" = None
          /\ forall (flag : bool) (compiler : Compiler),
               compile_drop_materialized_view {| dv_element := v; if_exists := flag |}
                 compiler
               = Err (AttributeError "cascade")).
Proof.
  split; [reflexivity|].
  intros metadata w view w' (v & Hv & Hattrs & _)%produced_view.
  exists v. split; [done|].
  assert (v_attrs v !! "cascade" = None) as Hnone by (by rewrite Hattrs, lookup_empty).
  split; [done|]. intros flag compiler.
  by apply compile_drop_view_without_cascade.
Qed.

Lemma factory_view_has_no_cascade_witness :
  exists v,
    views (create_view "v1" users_query 0 true false no_kwargs one_table_world).2 !! 0%nat
      = Some v
    /\ v_attrs v !! "cascade" = None
    /\ forall (flag : bool) (compiler : Compiler),
         compile_drop_materialized_view {| dv_element := v; if_exists := flag |} compiler
         = Err (AttributeError "cascade").
Proof.
  apply (proj2 factory_view_has_no_cascade 0%nat one_table_world).
  apply (by_create_view 0%nat one_table_world 0%nat _ "v1" users_query true false no_kwargs).
  reflexivity.
Defined.

(** ** Refresh *)

(** C7: one flush, then one execute of the refresh statement, whose text is
    REFRESH MATERIALIZED VIEW, CONCURRENTLY on request, and the quoted name.
    The call returns nothing; it raises what the database raises. *)
Theorem refresh_materialized_view_calls (session : Session) (name : string)
    (flag : bool) (w : World) :
  let stmt := StmtRefresh {| rmv_name := name; concurrently := flag |} in
  let text := "REFRESH MATERIALIZED VIEW "
                +:+ (if flag then "CONCURRENTLY " else EmptyString)
                +:+ quote (conn_compiler (sess_bind session)) name in
  exists r w',
    refresh_materialized_view session name flag w = (r, w')
    /\ calls w' = calls w ++ [CallFlush; CallExecute stmt]
    /\ compile (conn_compiler (sess_bind session)) stmt = Ok text
    /\ match conn_refuses (sess_bind session) (database w) text with
       | None => r = Ok tt /\ database w' = database w ++ [text]
       | Some e => r = Err e /\ database w' = database w
       end.
Proof.
  intros stmt text.
  unfold refresh_materialized_view, Session_flush, Session_execute, execute, bind,
    modify, get, raise.
  cbn.
  change (compile_refresh_materialized_view _ _) with text.
  destruct (conn_refuses (sess_bind session) (database w) text) as [e|];
    eexists _, _; (split; [reflexivity|]); cbn; rewrite <- app_assoc; auto.
Qed.

Example refresh_concurrently :
  let w' := (refresh_materialized_view {| sess_bind := accepting postgresql |}
               "v1" true initial_world).2 in
  calls w' = [CallFlush;
              CallExecute (StmtRefresh {| rmv_name := "v1"; concurrently := true |})]
  /\ database w' = ["REFRESH MATERIALIZED VIEW CONCURRENTLY " +:+ dq +:+ "v1" +:+ dq].
Proof. split; reflexivity. Qed.


(** ** The dispatch tag *)

Lemma keeps_tag_table {A} (m : M A) : keeps_tag m -> keeps_table_tag m.
Proof. intros H w Hw. by rewrite H. Qed.

Lemma keeps_tag_ret {A} (a : A) : keeps_tag (ret a).
Proof. by intros w. Qed.

Lemma keeps_tag_raise {A} (e : py_error) : keeps_tag (@raise A e).
Proof. by intros w. Qed.

Lemma keeps_tag_get : keeps_tag get.
Proof. by intros w. Qed.

Lemma keeps_tag_bind {A B} (m : M A) (k : A -> M B) :
  keeps_tag m -> (forall a, keeps_tag (k a)) -> keeps_tag (bind m k).
Proof.
  intros Hm Hk w. unfold bind. specialize (Hm w).
  destruct (m w) as [[a|e] w1]; cbn in *; [|done].
  by rewrite Hk.
Qed.

Lemma keeps_table_tag_bind {A B} (m : M A) (k : A -> M B) :
  keeps_table_tag m -> (forall a, keeps_table_tag (k a)) -> keeps_table_tag (bind m k).
Proof.
  intros Hm Hk w Hw. unfold bind. specialize (Hm w Hw).
  destruct (m w) as [[a|e] w1]; cbn in *; [|done].
  by apply Hk.
Qed.

Lemma keeps_tag_modify (f : World -> World) :
  (forall w, visit_name (f w) = visit_name w) -> keeps_tag (modify f).
Proof. intros H w. apply H. Qed.

Lemma keeps_tag_for_each {A} (body : A -> M unit) (l : list A) :
  (forall a, keeps_tag (body a)) -> keeps_tag (for_each body l).
Proof.
  intros H. induction l as [|a l IH]; cbn; [apply keeps_tag_ret|].
  apply keeps_tag_bind; auto.
Qed.

Lemma keeps_table_tag_for_each {A} (body : A -> M unit) (l : list A) :
  (forall a, keeps_table_tag (body a)) -> keeps_table_tag (for_each body l).
Proof.
  intros H. induction l as [|a l IH]; cbn; [by apply keeps_tag_table, keeps_tag_ret|].
  apply keeps_table_tag_bind; auto.
Qed.

Lemma keeps_tag_deref_view (view : nat) : keeps_tag (deref_view view).
Proof. intros w. unfold deref_view. by destruct (views w !! view). Qed.

Lemma keeps_tag_deref_metadata (metadata : nat) : keeps_tag (deref_metadata metadata).
Proof. intros w. unfold deref_metadata. by destruct (metadatas w !! metadata). Qed.

Lemma keeps_tag_execute (conn : Connection) (stmt : Statement) : keeps_tag (execute conn stmt).
Proof.
  unfold execute. apply keeps_tag_bind; [by apply keeps_tag_modify|]. intros _.
  destruct (compile (conn_compiler conn) stmt) as [sql|e]; [|apply keeps_tag_raise].
  apply keeps_tag_bind; [apply keeps_tag_get|]. intros w1.
  destruct (conn_refuses conn (database w1) sql);
    [apply keeps_tag_raise | by apply keeps_tag_modify].
Qed.

Lemma keeps_tag_as_table (t : TableRef) : keeps_tag (as_table t).
Proof.
  destruct t; cbn; [apply keeps_tag_ret|].
  apply keeps_tag_bind; [apply keeps_tag_deref_view | intros; apply keeps_tag_ret].
Qed.

Lemma keeps_tag_run_ddl_visitor conn visitorcallable element checkfirst :
  keeps_tag (run_ddl_visitor conn visitorcallable element checkfirst).
Proof.
  unfold run_ddl_visitor. apply keeps_tag_bind; [apply keeps_tag_get|]. intros w1.
  destruct (String.eqb _ _); [|destruct (String.eqb _ _)];
    try destruct visitorcallable; try apply keeps_tag_ret;
    (apply keeps_tag_bind; [apply keeps_tag_deref_view | intros; apply keeps_tag_execute]).
Qed.

(** The visitor run of [View.create_view] and [View.drop_view] happens between
    the two assignments of the tag, and goes to [visit_view]. *)
Lemma View_create_view_run (self : nat) (conn : Connection) (checkfirst : bool) (w : World) :
  View_create_view self conn checkfirst w
  = let (r, w1) := ExtSchemaGenerator_visit_view conn self (set_visit_name "view" w) in
    (r, set_visit_name "table" w1).
Proof. reflexivity. Qed.

Lemma View_drop_view_run (self : nat) (conn : Connection) (checkfirst : bool) (w : World) :
  View_drop_view self conn checkfirst w
  = let (r, w1) := ExtSchemaDropper_visit_view conn self (set_visit_name "view" w) in
    (r, set_visit_name "table" w1).
Proof. reflexivity. Qed.

Lemma View_create_view_restores_tag self conn checkfirst w :
  visit_name (View_create_view self conn checkfirst w).2 = "table".
Proof.
  rewrite View_create_view_run.
  by destruct (ExtSchemaGenerator_visit_view conn self (set_visit_name "view" w)).
Qed.

Lemma View_drop_view_restores_tag self conn checkfirst w :
  visit_name (View_drop_view self conn checkfirst w).2 = "table".
Proof.
  rewrite View_drop_view_run.
  by destruct (ExtSchemaDropper_visit_view conn self (set_visit_name "view" w)).
Qed.

Lemma keeps_table_tag_run_hook (conn : Connection) (h : Hook) :
  keeps_table_tag (run_hook conn h).
Proof.
  destruct h as [view|view|view]; cbn.
  - intros w _. apply View_create_view_restores_tag.
  - apply keeps_tag_table, keeps_tag_bind; [apply keeps_tag_deref_view|].
    intros v. apply keeps_tag_for_each. intros idx. apply keeps_tag_execute.
  - intros w _. apply View_drop_view_restores_tag.
Qed.

Lemma keeps_tag_Table_init name metadata args kwargs sel mat rep :
  keeps_tag (Table_init name metadata args kwargs sel mat rep).
Proof.
  intros w. unfold Table_init.
  destruct (has_table w metadata name); [done|].
  by destruct (kwargs_accepted (kw_registry w) kwargs).
Qed.

Lemma keeps_tag_View_init name metadata sel mat rep args kwargs :
  keeps_tag (View_init name metadata sel mat rep args kwargs).
Proof.
  unfold View_init. apply keeps_tag_bind; [apply keeps_tag_Table_init|]. intros self.
  destruct (mat && rep); [|apply keeps_tag_ret].
  apply keeps_tag_bind; [by apply keeps_tag_modify | intros; apply keeps_tag_raise].
Qed.

Lemma keeps_tag_View_append_constraint (view : nat) (c : Constraint) :
  keeps_tag (View_append_constraint view c).
Proof.
  unfold View_append_constraint.
  apply keeps_tag_bind; [apply keeps_tag_deref_view|]. intros v.
  destruct (append_constraint c v); [by apply keeps_tag_modify | apply keeps_tag_raise].
Qed.

Lemma keeps_tag_create_view_from_selectable name sel indexes metadata aliases mat rep kwargs :
  keeps_tag (create_view_from_selectable name sel indexes metadata aliases mat rep kwargs).
Proof.
  unfold create_view_from_selectable. apply keeps_tag_bind.
  { destruct metadata; [apply keeps_tag_ret | by intros w]. }
  intros m. apply keeps_tag_bind; [apply keeps_tag_View_init|]. intros view.
  apply keeps_tag_bind; [|intros; apply keeps_tag_ret].
  destruct (negb _); [apply keeps_tag_View_append_constraint | apply keeps_tag_ret].
Qed.

Lemma keeps_tag_listens_for_after_create metadata h :
  keeps_tag (listens_for_after_create metadata h).
Proof. by apply keeps_tag_modify. Qed.

Lemma keeps_tag_listens_for_before_drop metadata h :
  keeps_tag (listens_for_before_drop metadata h).
Proof. by apply keeps_tag_modify. Qed.

Lemma keeps_tag_hook_wiring (metadata : nat) (m : M nat) :
  keeps_tag m ->
  keeps_tag (view <- m ;;
             listens_for_after_create metadata (hook_create_view view) ;;
             listens_for_after_create metadata (hook_create_indexes view) ;;
             listens_for_before_drop metadata (hook_drop_view view) ;;
             ret view).
Proof.
  intros Hm. apply keeps_tag_bind; [exact Hm|]. intros view.
  apply keeps_tag_bind; [apply keeps_tag_listens_for_after_create|]. intros _.
  apply keeps_tag_bind; [apply keeps_tag_listens_for_after_create|]. intros _.
  apply keeps_tag_bind; [apply keeps_tag_listens_for_before_drop|]. intros _.
  apply keeps_tag_ret.
Qed.

Lemma keeps_tag_create_view name sel metadata cascade_on_drop rep kwargs :
  keeps_tag (create_view name sel metadata cascade_on_drop rep kwargs).
Proof. apply keeps_tag_hook_wiring, keeps_tag_create_view_from_selectable. Qed.

Lemma keeps_tag_create_materialized_view name sel metadata indexes aliases kwargs :
  keeps_tag (create_materialized_view name sel metadata indexes aliases kwargs).
Proof. apply keeps_tag_hook_wiring, keeps_tag_create_view_from_selectable. Qed.

Lemma step_keeps_table_tag (w w' : World) :
  step w w' -> visit_name w = "table" -> visit_name w' = "table".
Proof.
  intros Hstep Hw.
  assert (forall A (m : M A) r, keeps_table_tag m -> m w = (r, w') -> visit_name w' = "table")
    as Huse.
  { intros A m r Hm Hrun. specialize (Hm w Hw). by rewrite Hrun in Hm. }
  destruct Hstep as [? ? ? ? ? ? ? ? r H | ? ? ? ? ? ? r H | ? ? ? ? ? ? r H
                    | ? ? ? r H | ? ? ? r H | ? ? ? r H | ? ? r H | ? ? r H
                    | r H | ? ? ? r H | r H];
    [| | | | | | | | | | by subst w'];
    eapply Huse; try exact H.
  - apply keeps_tag_table, keeps_tag_create_view_from_selectable.
  - apply keeps_tag_table, keeps_tag_create_view.
  - apply keeps_tag_table, keeps_tag_create_materialized_view.
  - intros w1 _. apply View_create_view_restores_tag.
  - intros w1 _. apply View_drop_view_restores_tag.
  - apply keeps_tag_table. unfold refresh_materialized_view, Session_flush, Session_execute.
    apply keeps_tag_bind; [by apply keeps_tag_modify | intros; apply keeps_tag_execute].
  - unfold MetaData_create_all.
    apply keeps_table_tag_bind; [apply keeps_tag_table, keeps_tag_deref_metadata|].
    intros md. apply keeps_table_tag_bind.
    + apply keeps_tag_table, keeps_tag_for_each. intros t.
      apply keeps_tag_bind; [apply keeps_tag_as_table | intros; apply keeps_tag_execute].
    + intros _. apply keeps_table_tag_for_each, keeps_table_tag_run_hook.
  - unfold MetaData_drop_all.
    apply keeps_table_tag_bind; [apply keeps_tag_table, keeps_tag_deref_metadata|].
    intros md. apply keeps_table_tag_bind.
    + apply keeps_table_tag_for_each, keeps_table_tag_run_hook.
    + intros _. apply keeps_tag_table, keeps_tag_for_each. intros t.
      apply keeps_tag_bind; [apply keeps_tag_as_table | intros; apply keeps_tag_execute].
  - by apply keeps_tag_table.
  - by apply keeps_tag_table, keeps_tag_modify.
Qed.

Lemma reachable_table_tag (w : World) : reachable w -> visit_name w = "table".
Proof.
  induction 1 as [|w w' _ IH Hstep]; [done|].
  by eapply step_keeps_table_tag.
Qed.

(** C9: [View.create_view] and [View.drop_view] run their visitor with the
    tag at "view", so that it goes to [visit_view], and leave the tag at
    "table" whether the run returns or raises; in every store that the
    operations of the module can reach, the tag reads "table". *)
Theorem visit_name_is_view_only_during_visitor_run :
  (forall (self : nat) (conn : Connection) (checkfirst : bool) (w : World),
     let create_run := ExtSchemaGenerator_visit_view conn self (set_visit_name "view" w) in
     let drop_run := ExtSchemaDropper_visit_view conn self (set_visit_name "view" w) in
     View_create_view self conn checkfirst w
       = (create_run.1, set_visit_name "table" create_run.2)
     /\ View_drop_view self conn checkfirst w
        = (drop_run.1, set_visit_name "table" drop_run.2)
     /\ visit_name create_run.2 = "view"
     /\ visit_name drop_run.2 = "view"
     /\ visit_name (View_create_view self conn checkfirst w).2 = "table"
     /\ visit_name (View_drop_view self conn checkfirst w).2 = "table")
  /\ (forall w : World, reachable w -> visit_name w = "table").
Proof.
  split; [|apply reachable_table_tag].
  intros self conn checkfirst w create_run drop_run.
  split; [rewrite View_create_view_run; fold create_run; by destruct create_run|].
  split; [rewrite View_drop_view_run; fold drop_run; by destruct drop_run|].
  split.
  { unfold create_run, ExtSchemaGenerator_visit_view.
    rewrite keeps_tag_bind; [done | apply keeps_tag_deref_view |].
    intros v. apply keeps_tag_execute. }
  split.
  { unfold drop_run, ExtSchemaDropper_visit_view.
    rewrite keeps_tag_bind; [done | apply keeps_tag_deref_view |].
    intros v. apply keeps_tag_execute. }
  split; [apply View_create_view_restores_tag | apply View_drop_view_restores_tag].
Qed.

Lemma visit_name_is_view_only_during_visitor_run_witness :
  visit_name
    (View_create_view 0 (refusing postgresql) false
       (create_view "v1" users_query 0 true false no_kwargs
          (MetaData_new initial_world).2).2).2 = "table".
Proof.
  apply (proj2 visit_name_is_view_only_during_visitor_run).
  eapply reachable_step; [eapply reachable_step; [eapply reachable_step;
    [apply reachable_initial|]|]|].
  - apply (step_new_metadata _ _ (MetaData_new initial_world).1). reflexivity.
  - apply (step_create_view _ _ "v1" users_query 0%nat true false no_kwargs
             (create_view "v1" users_query 0 true false no_kwargs
                (MetaData_new initial_world).2).1).
    reflexivity.
  - apply (step_View_create_view _ _ 0%nat (refusing postgresql) false
             (View_create_view 0 (refusing postgresql) false
                (create_view "v1" users_query 0 true false no_kwargs
                   (MetaData_new initial_world).2).2).1).
    reflexivity.
Defined.

(** The tag is restored when the database refuses the statement. *)
Example create_view_refused :
  let w := (create_view "v1" users_query 0 true false no_kwargs one_table_world).2 in
  let run := View_create_view 0 (refusing postgresql) false w in
  run.1 = Err (ExecutionError ("CREATE VIEW " +:+ dq +:+ "v1" +:+ dq
                                 +:+ " AS SELECT t.id FROM t"))
  /\ visit_name run.2 = "table"
  /\ database run.2 = [].
Proof. by vm_compute. Qed.


(** ** The caller's container *)

Lemma lookup_with_hooks (metadata view : nat) (w : World) (md : MetaData) :
  metadatas w !! metadata = Some md ->
  metadatas (with_hooks metadata view w) !! metadata
  = Some (add_before_drop (hook_drop_view view)
            (add_after_create (hook_create_indexes view)
               (add_after_create (hook_create_view view) md))).
Proof.
  intros H. cbn. rewrite !list_lookup_alter_eq. by rewrite H.
Qed.

Lemma lookup_with_hooks_ne (metadata view m : nat) (w : World) :
  m <> metadata ->
  metadatas (with_hooks metadata view w) !! m = metadatas w !! m.
Proof.
  intros H. cbn. by rewrite !list_lookup_alter_ne.
Qed.

Lemma metadatas_after_create_view_from_selectable name sel indexes aliases mat rep kwargs w :
  metadatas (after_create_view_from_selectable name sel indexes None aliases mat rep kwargs w)
  = metadatas w ++ [add_table (ViewRef (length (views w))) empty_metadata].
Proof. cbn. apply alter_last. Qed.

(** What a factory does to the containers: the caller's gets the three
    listeners and nothing else, a new one gets the view, the others are left
    alone. *)
Lemma produced_by_factory_metadatas (metadata : nat) (w : World) (view : nat)
    (w' : World) (md : MetaData) :
  metadatas w !! metadata = Some md ->
  produced_by_factory metadata w view w' ->
  metadatas w' !! metadata
    = Some {| tables := tables md;
              after_create := after_create md
                                ++ [hook_create_view view; hook_create_indexes view];
              before_drop := before_drop md ++ [hook_drop_view view] |}
  /\ metadatas w' !! length (metadatas w)
     = Some {| tables := [ViewRef view]; after_create := []; before_drop := [] |}
  /\ (forall m, m <> metadata -> (m < length (metadatas w))%nat ->
        metadatas w' !! m = metadatas w !! m)
  /\ calls w' = calls w /\ database w' = database w
  /\ visit_name w' = visit_name w
  /\ exists v, views w' = views w ++ [v].
Proof.
  intros Hmd (-> & name & sel & indexes & aliases & mat & rep & kwargs & ->)%produced_by_factory_inv.
  assert (metadata < length (metadatas w))%nat as Hlt by (by eapply lookup_lt_Some).
  split.
  { rewrite (lookup_with_hooks _ _ _ md).
    - unfold add_before_drop, add_after_create. cbn. by rewrite <- app_assoc.
    - rewrite metadatas_after_create_view_from_selectable. by rewrite lookup_app_l. }
  split.
  { rewrite lookup_with_hooks_ne by lia.
    rewrite metadatas_after_create_view_from_selectable.
    rewrite lookup_app_r by lia. by rewrite Nat.sub_diag. }
  split.
  { intros m Hne Hm. rewrite lookup_with_hooks_ne by done.
    rewrite metadatas_after_create_view_from_selectable. by rewrite lookup_app_l. }
  repeat (split; [done|]). by eexists.
Qed.

(** C10: the view that a factory returns is not in the table collection of
    the caller's container.  It is registered in a container of its own,
    created for it, and the caller's container only gains the three
    listeners. *)
Theorem factory_view_not_in_callers_container (metadata : nat) (w : World)
    (view : nat) (w' : World) (md : MetaData) :
  well_formed w ->
  metadatas w !! metadata = Some md ->
  produced_by_factory metadata w view w' ->
  exists md' v,
    metadatas w' !! metadata = Some md'
    /\ tables md' = tables md
    /\ (ViewRef view ∉ tables md')
    /\ after_create md' = after_create md ++ [hook_create_view view; hook_create_indexes view]
    /\ before_drop md' = before_drop md ++ [hook_drop_view view]
    /\ views w' !! view = Some v
    /\ v_metadata v <> metadata
    /\ metadatas w !! v_metadata v = None
    /\ metadatas w' !! v_metadata v
       = Some {| tables := [ViewRef view]; after_create := []; before_drop := [] |}
    /\ (forall m, m <> metadata -> (m < length (metadatas w))%nat ->
          metadatas w' !! m = metadatas w !! m).
Proof.
  intros Hwf Hmd Hfactory.
  destruct (produced_by_factory_metadatas _ _ _ _ _ Hmd Hfactory)
    as (Hcaller & Hprivate & Hothers & _).
  destruct (produced_view _ _ _ _ Hfactory) as (v & Hv & _ & Hvm).
  destruct (produced_by_factory_inv _ _ _ _ Hfactory) as [Hview _].
  assert (metadata < length (metadatas w))%nat as Hlt by (by eapply lookup_lt_Some).
  eexists _, v. split; [exact Hcaller|]. cbn.
  split; [done|]. split.
  { intros Hin. specialize (Hwf metadata md Hmd).
    rewrite Forall_forall in Hwf. apply Hwf in Hin. cbn in Hin. lia. }
  repeat (split; [done|]).
  rewrite Hvm. split; [lia|].
  split; [by apply lookup_ge_None_2|].
  split; [exact Hprivate | exact Hothers].
Qed.

Lemma one_table_world_well_formed : well_formed one_table_world.
Proof.
  intros [|m] md; cbn; [|done].
  intros [= <-]. cbn. by repeat constructor.
Qed.

Lemma factory_view_not_in_callers_container_witness :
  exists md' v,
    metadatas (create_view "v1" users_query 0 true false no_kwargs one_table_world).2
      !! 0%nat = Some md'
    /\ tables md' = [BaseTable users_table]
    /\ (ViewRef 0 ∉ tables md')
    /\ views (create_view "v1" users_query 0 true false no_kwargs one_table_world).2
         !! 0%nat = Some v
    /\ v_metadata v = 1%nat.
Proof.
  destruct (factory_view_not_in_callers_container 0 one_table_world 0
              (create_view "v1" users_query 0 true false no_kwargs one_table_world).2
              {| tables := [BaseTable users_table]; after_create := []; before_drop := [] |}
              one_table_world_well_formed eq_refl
              (by_create_view 0%nat one_table_world 0%nat _ "v1" users_query true false
                 no_kwargs eq_refl))
    as (md' & v & Hmd' & Htables & Hnotin & _ & _ & Hv & _ & _ & _ & _).
  exists md', v. repeat split; [exact Hmd' | exact Htables | exact Hnotin | exact Hv |].
  cbn in Hv. injection Hv as <-. reflexivity.
Defined.

(** The factories return a view when the construction is accepted and the
    key synthesis finds its columns. *)
Lemma factories_return (name : string) (sel : Selectable) (metadata : nat) (w : World) :
  (forall indexes aliases kwargs,
     kwargs_accepted (kw_registry w) kwargs = true ->
     (existsb sc_primary_key (get_columns sel) = false ->
      names_are_keys (default ∅ aliases) sel = true) ->
     exists view w',
       create_materialized_view name sel metadata indexes aliases kwargs w = (Ok view, w')
       /\ produced_by_factory metadata w view w')
  /\ (forall cascade_on_drop rep kwargs,
        construction_accepted name None (default false (kw_materialized kwargs)) rep
          (kw_dialect kwargs) w = true ->
        (existsb sc_primary_key (get_columns sel) = false ->
         names_are_keys (default ∅ (kw_aliases kwargs)) sel = true) ->
        exists view w',
          create_view name sel metadata cascade_on_drop rep kwargs w = (Ok view, w')
          /\ produced_by_factory metadata w view w').
Proof.
  split.
  - intros indexes aliases kwargs Hkw Hkeys.
    pose proof (create_materialized_view_run name sel metadata indexes aliases kwargs w
                  Hkw Hkeys) as Hrun.
    eexists _, _. split; [exact Hrun|].
    by eapply by_create_materialized_view.
  - intros cascade_on_drop rep kwargs Haccepted Hkeys.
    pose proof (create_view_run name sel metadata cascade_on_drop rep kwargs w
                  Haccepted Hkeys) as Hrun.
    eexists _, _. split; [exact Hrun|].
    by eapply by_create_view.
Qed.


(** ** The create-all and drop-all passes *)

Lemma execute_accepting (compiler : Compiler) (stmt : Statement) (sql : string) (w : World) :
  compile compiler stmt = Ok sql ->
  execute (accepting compiler) stmt w
  = (Ok tt, log_sql sql (log_call (CallExecute stmt) w)).
Proof. intros H. unfold execute, bind, modify, get. cbn. by rewrite H. Qed.

(** Dropping a view that has no [cascade] attribute: the statement is built
    and handed to the connection, its compilation raises, nothing reaches
    the database. *)
Lemma View_drop_view_without_cascade (view : nat) (v : View) (conn : Connection)
    (checkfirst : bool) (w : World) :
  views w !! view = Some v ->
  v_attrs v !! "cascade" = None ->
  exists w',
    View_drop_view view conn checkfirst w = (Err (AttributeError "cascade"), w')
    /\ database w' = database w
    /\ calls w' = calls w ++ [CallExecute (StmtDropView {| dv_element := v; if_exists := false |})]
    /\ visit_name w' = "table".
Proof.
  intros Hv Hnone. rewrite View_drop_view_run.
  unfold ExtSchemaDropper_visit_view, bind, deref_view. cbn. rewrite Hv.
  unfold execute, bind, modify. cbn.
  rewrite compile_drop_view_without_cascade by done.
  eexists. by repeat split.
Qed.

(** C8, on the code: after a factory has attached its listeners to a
    container, the drop-all pass of that container raises [AttributeError]
    in the before-drop listener.  No DROP VIEW and no DROP TABLE reaches the
    database. *)
Theorem drop_all_raises_on_factory_view (metadata : nat) (w0 : World) (view : nat)
    (w : World) (md : MetaData) (conn : Connection) :
  metadatas w0 !! metadata = Some md ->
  before_drop md = [] ->
  produced_by_factory metadata w0 view w ->
  exists w',
    MetaData_drop_all metadata conn w = (Err (AttributeError "cascade"), w')
    /\ database w' = database w.
Proof.
  intros Hmd Hhooks Hfactory.
  destruct (produced_by_factory_metadatas _ _ _ _ _ Hmd Hfactory) as (Hcaller & _).
  destruct (produced_view _ _ _ _ Hfactory) as (v & Hv & Hattrs & _).
  assert (v_attrs v !! "cascade" = None) as Hnone by (by rewrite Hattrs, lookup_empty).
  destruct (View_drop_view_without_cascade view v conn false w Hv Hnone)
    as (w1 & Hrun & Hdb & _).
  unfold MetaData_drop_all, bind, deref_metadata. rewrite Hcaller, Hhooks. cbn.
  unfold bind. rewrite Hrun. eauto.
Qed.

Lemma drop_all_raises_on_factory_view_witness :
  let w := (create_view "v1" ab_query 0 true false no_kwargs one_table_world).2 in
  exists w',
    MetaData_drop_all 0 (accepting postgresql) w = (Err (AttributeError "cascade"), w')
    /\ database w' = database w.
Proof.
  exact (drop_all_raises_on_factory_view 0 one_table_world 0 _ _ (accepting postgresql)
           eq_refl eq_refl
           (by_create_view 0%nat one_table_world 0%nat _ "v1" ab_query true false
              no_kwargs eq_refl)).
Defined.

Lemma create_tables_accepting (compiler : Compiler) (tbs : list Table) (w : World) :
  exists w',
    for_each (fun t => tb <- as_table t ;; execute (accepting compiler) (StmtCreateTable tb))
      (BaseTable <$> tbs) w = (Ok tt, w')
    /\ database w' = database w ++ (visit_create_table compiler <$> tbs)
    /\ views w' = views w
    /\ visit_name w' = visit_name w.
Proof.
  revert w. induction tbs as [|tb tbs IH]; intros w.
  - exists w. cbn. by rewrite app_nil_r.
  - cbn.
    destruct (IH (log_sql (visit_create_table compiler tb)
                    (log_call (CallExecute (StmtCreateTable tb)) w)))
      as (w' & Hrun & Hdb & Hviews & Htag).
    exists w'. split; [exact Hrun|]. cbn in *.
    by rewrite Hdb, <- app_assoc.
Qed.

Lemma create_indexes_accepting (compiler : Compiler) (idxs : list Index) (w : World) :
  exists w',
    for_each (fun idx => Index_create idx (accepting compiler)) idxs w = (Ok tt, w')
    /\ database w' = database w ++ (visit_create_index compiler <$> idxs)
    /\ views w' = views w
    /\ visit_name w' = visit_name w.
Proof.
  revert w. induction idxs as [|idx idxs IH]; intros w.
  - exists w. cbn. by rewrite app_nil_r.
  - cbn.
    destruct (IH (log_sql (visit_create_index compiler idx)
                    (log_call (CallExecute (StmtCreateIndex idx)) w)))
      as (w' & Hrun & Hdb & Hviews & Htag).
    exists w'. split; [exact Hrun|]. cbn in *.
    by rewrite Hdb, <- app_assoc.
Qed.

Lemma View_create_view_accepting (view : nat) (v : View) (compiler : Compiler)
    (checkfirst : bool) (w : World) :
  views w !! view = Some v ->
  exists w',
    View_create_view view (accepting compiler) checkfirst w = (Ok tt, w')
    /\ database w'
       = database w ++ [compile_create_materialized_view
                          {| cv_element := v; if_not_exists := false |} compiler]
    /\ views w' = views w
    /\ visit_name w' = "table".
Proof.
  intros Hv. rewrite View_create_view_run.
  unfold ExtSchemaGenerator_visit_view, bind, deref_view. cbn. rewrite Hv. cbn.
  eexists. by repeat split.
Qed.

(** X2: on a database that runs what it is sent, the create-all pass of a
    container of base tables creates the tables, then the view, then the
    indexes of the view, each index once and in the order in which the set
    of indexes yields them. *)
Lemma create_all_order (metadata : nat) (w0 : World) (view : nat) (w : World)
    (tbs : list Table) (compiler : Compiler) :
  metadatas w0 !! metadata
    = Some {| tables := BaseTable <$> tbs; after_create := []; before_drop := [] |} ->
  produced_by_factory metadata w0 view w ->
  exists v order w',
    views w !! view = Some v
    /\ NoDup order
    /\ (forall idx, idx ∈ order <-> idx ∈ v_indexes v)
    /\ MetaData_create_all metadata (accepting compiler) w = (Ok tt, w')
    /\ database w'
       = database w
           ++ (visit_create_table compiler <$> tbs)
           ++ [compile_create_materialized_view
                 {| cv_element := v; if_not_exists := false |} compiler]
           ++ (visit_create_index compiler <$> order).
Proof.
  intros Hmd Hfactory.
  destruct (produced_by_factory_metadatas _ _ _ _ _ Hmd Hfactory) as (Hcaller & _).
  destruct (produced_view _ _ _ _ Hfactory) as (v & Hv & _).
  exists v, (elements (v_indexes v)).
  destruct (create_tables_accepting compiler tbs w) as (w1 & Hrun1 & Hdb1 & Hviews1 & _).
  assert (views w1 !! view = Some v) as Hv1 by (by rewrite Hviews1).
  destruct (View_create_view_accepting view v compiler false w1 Hv1)
    as (w2 & Hrun2 & Hdb2 & Hviews2 & _).
  destruct (create_indexes_accepting compiler (elements (v_indexes v)) w2)
    as (w3 & Hrun3 & Hdb3 & _).
  exists w3. split; [done|].
  split; [apply NoDup_elements|].
  split; [intros idx; apply elem_of_elements|].
  split.
  - unfold MetaData_create_all.
    erewrite bind_ok by (unfold deref_metadata; by rewrite Hcaller).
    cbn [tables after_create app].
    erewrite bind_ok by exact Hrun1.
    cbn [for_each run_hook].
    erewrite bind_ok by exact Hrun2.
    erewrite bind_ok; [reflexivity|].
    erewrite bind_ok by (unfold deref_view; by rewrite Hviews2, Hv1).
    exact Hrun3.
  - rewrite Hdb3, Hdb2, Hdb1. by rewrite <- !app_assoc.
Qed.

(** The passes on the sample container: the table and the view are created
    in that order, and the drop-all pass raises. *)
Example create_all_then_drop_all :
  let w := (create_view "v1" ab_query 0 true false no_kwargs one_table_world).2 in
  let created := MetaData_create_all 0 (accepting postgresql) w in
  let dropped := MetaData_drop_all 0 (accepting postgresql) created.2 in
  created.1 = Ok tt
  /\ database created.2
     = ["CREATE TABLE " +:+ dq +:+ "users" +:+ dq;
        "CREATE VIEW " +:+ dq +:+ "v1" +:+ dq
          +:+ " AS SELECT t.a, t.b FROM t WHERE t.a > 5"]
  /\ dropped.1 = Err (AttributeError "cascade")
  /\ database dropped.2 = database created.2.
Proof. by vm_compute. Qed.

(** Once a caller has assigned the attribute, the drop-all pass drops the
    view before the table. *)
Example drop_all_after_setattr :
  let w := (create_view "v1" ab_query 0 true false no_kwargs one_table_world).2 in
  let w1 := (update_view 0 (setattr "cascade" (PyBool true)) w).2 in
  let dropped := MetaData_drop_all 0 (accepting postgresql) w1 in
  dropped.1 = Ok tt
  /\ database dropped.2
     = ["DROP VIEW IF EXISTS " +:+ dq +:+ "v1" +:+ dq +:+ " CASCADE";
        "DROP TABLE " +:+ dq +:+ "users" +:+ dq].
Proof. by vm_compute. Qed.

Lemma create_all_order_witness :
  exists v order w',
    views (create_view "v1" ab_query 0 true false indexed_kwargs one_table_world).2 !! 0%nat
      = Some v
    /\ NoDup order
    /\ (forall idx, idx ∈ order <-> idx ∈ v_indexes v)
    /\ ix_a ∈ v_indexes v /\ ix_b ∈ v_indexes v
    /\ MetaData_create_all 0 (accepting postgresql)
         (create_view "v1" ab_query 0 true false indexed_kwargs one_table_world).2
       = (Ok tt, w')
    /\ database w'
       = [visit_create_table postgresql users_table;
          compile_create_materialized_view
            {| cv_element := v; if_not_exists := false |} postgresql]
         ++ (visit_create_index postgresql <$> order).
Proof.
  destruct (create_all_order 0 one_table_world 0 _ [users_table] postgresql eq_refl
              (by_create_view 0%nat one_table_world 0%nat _ "v1" ab_query true false
                 indexed_kwargs eq_refl))
    as (v & order & w' & Hv & Hnodup & Horder & Hrun & Hdb).
  exists v, order, w'.
  split; [exact Hv|]. split; [exact Hnodup|]. split; [exact Horder|].
  split; [|split; [|split; [exact Hrun | exact Hdb]]].
  - cbn in Hv. injection Hv as <-. cbn. set_solver.
  - cbn in Hv. injection Hv as <-. cbn. set_solver.
Defined.


(** ** The setters *)

Lemma update_view_run (self : nat) (f : View -> View) (v : View) (w : World) :
  views w !! self = Some v ->
  exists w',
    update_view self f w = (Ok tt, w')
    /\ views w' !! self = Some (f v)
    /\ (forall other, other <> self -> views w' !! other = views w !! other)
    /\ metadatas w' = metadatas w
    /\ calls w' = calls w
    /\ database w' = database w
    /\ visit_name w' = visit_name w.
Proof.
  intros Hv. eexists. split; [reflexivity|]. cbn.
  split; [by rewrite list_lookup_alter_eq, Hv|].
  split; [|done]. intros other Hne. by rewrite list_lookup_alter_ne.
Qed.

(** X3: the setters assign without the check of the constructor.  Setting
    [replace] on a materialized view, or [materialized] on a view with
    [replace], returns normally, and the CREATE statement of the view then
    carries both OR REPLACE and MATERIALIZED. *)
Theorem setters_do_not_check_flags (self : nat) (v : View) (w : World) :
  views w !! self = Some v ->
  (materialized v = true ->
   exists w',
     View_set_replace self true w = (Ok tt, w')
     /\ views w' !! self = Some (set_replace true v)
     /\ forall (flag : bool) (compiler : Compiler),
          compile_create_materialized_view
            {| cv_element := set_replace true v; if_not_exists := flag |} compiler
          = "CREATE OR REPLACE MATERIALIZED VIEW " +:+ quote compiler (v_name v)
              +:+ withclause_text v +:+ " AS " +:+ process compiler (selectable v) true)
  /\ (replace v = true ->
      exists w',
        View_set_materialized self true w = (Ok tt, w')
        /\ views w' !! self = Some (set_materialized true v)
        /\ forall (flag : bool) (compiler : Compiler),
             compile_create_materialized_view
               {| cv_element := set_materialized true v; if_not_exists := flag |} compiler
             = "CREATE OR REPLACE MATERIALIZED VIEW " +:+ quote compiler (v_name v)
                 +:+ withclause_text v +:+ " AS " +:+ process compiler (selectable v) true).
Proof.
  intros Hv. split; intros Hflag.
  - destruct (update_view_run self (set_replace true) v w Hv) as (w' & Hrun & Hv' & _).
    exists w'. split; [exact Hrun|]. split; [exact Hv'|].
    intros flag compiler. unfold compile_create_materialized_view.
    cbn [cv_element]. unfold materialized in *. unfold replace.
    cbn [_materialized _replace set_replace v_name]. by rewrite Hflag.
  - destruct (update_view_run self (set_materialized true) v w Hv) as (w' & Hrun & Hv' & _).
    exists w'. split; [exact Hrun|]. split; [exact Hv'|].
    intros flag compiler. unfold compile_create_materialized_view.
    cbn [cv_element]. unfold replace in *. unfold materialized.
    cbn [_materialized _replace set_materialized v_name]. by rewrite Hflag.
Qed.

Lemma setters_do_not_check_flags_witness :
  let w := (create_materialized_view "v1" users_query 0 None None ∅ one_table_world).2 in
  exists v w',
    views w !! 0%nat = Some v
    /\ View_set_replace 0 true w = (Ok tt, w')
    /\ views w' !! 0%nat = Some (set_replace true v)
    /\ compile_create_materialized_view
         {| cv_element := set_replace true v; if_not_exists := false |} postgresql
       = "CREATE OR REPLACE MATERIALIZED VIEW " +:+ dq +:+ "v1" +:+ dq
           +:+ " AS SELECT t.id FROM t".
Proof.
  intros w.
  destruct (proj1 (setters_do_not_check_flags 0
                     (derived_view "v1" 1 users_query [] ∅ true false ∅) w eq_refl) eq_refl)
    as (w' & Hrun & Hv' & Htext).
  eexists _, w'. split; [reflexivity|]. split; [exact Hrun|]. split; [exact Hv'|].
  exact (Htext false postgresql).
Defined.

(** X4: the after-create listener compiles the view as it is when it fires.
    A defining query assigned through the setter after the factory has
    returned is the one that CREATE VIEW carries. *)
Theorem listener_compiles_current_view (view : nat) (v : View) (sel' : Selectable)
    (compiler : Compiler) (w : World) :
  views w !! view = Some v ->
  exists w',
    (View_set_selectable view sel' ;;
     run_hook (accepting compiler) (hook_create_view view)) w = (Ok tt, w')
    /\ database w'
       = database w
           ++ ["CREATE " +:+ (if replace v then "OR REPLACE " else EmptyString)
                 +:+ (if materialized v then "MATERIALIZED " else EmptyString)
                 +:+ "VIEW " +:+ quote compiler (v_name v)
                 +:+ withclause_text v
                 +:+ " AS " +:+ process compiler sel' true].
Proof.
  intros Hv.
  destruct (update_view_run view (set_selectable sel') v w Hv)
    as (w1 & Hrun1 & Hv1 & _ & _ & _ & Hdb1 & _).
  destruct (View_create_view_accepting view _ compiler false w1 Hv1)
    as (w2 & Hrun2 & Hdb2 & _).
  exists w2. split.
  - erewrite bind_ok by exact Hrun1. exact Hrun2.
  - by rewrite Hdb2, Hdb1.
Qed.

Lemma listener_compiles_current_view_witness :
  let w := (create_view "v1" users_query 0 true false no_kwargs one_table_world).2 in
  exists w',
    (View_set_selectable 0 ab_query ;;
     run_hook (accepting postgresql) (hook_create_view 0)) w = (Ok tt, w')
    /\ database w'
       = ["CREATE VIEW " +:+ dq +:+ "v1" +:+ dq
            +:+ " AS SELECT t.a, t.b FROM t WHERE t.a > 5"].
Proof.
  intros w.
  exact (listener_compiles_current_view 0
           (derived_view "v1" 1 users_query [] ∅ false false ∅) ab_query postgresql w
           eq_refl).
Defined.

(** X5: [checkfirst] does not reach [visit_view].  Two calls of
    [View.create_view] with [checkfirst=True] send the same CREATE VIEW
    twice. *)
Theorem create_view_twice_sends_twice (view : nat) (v : View) (compiler : Compiler)
    (w : World) :
  views w !! view = Some v ->
  exists w',
    (View_create_view view (accepting compiler) true ;;
     View_create_view view (accepting compiler) true) w = (Ok tt, w')
    /\ database w'
       = database w
           ++ [compile_create_materialized_view
                 {| cv_element := v; if_not_exists := false |} compiler;
               compile_create_materialized_view
                 {| cv_element := v; if_not_exists := false |} compiler]
    /\ visit_name w' = "table".
Proof.
  intros Hv.
  destruct (View_create_view_accepting view v compiler true w Hv)
    as (w1 & Hrun1 & Hdb1 & Hviews1 & _).
  assert (views w1 !! view = Some v) as Hv1 by (by rewrite Hviews1).
  destruct (View_create_view_accepting view v compiler true w1 Hv1)
    as (w2 & Hrun2 & Hdb2 & _ & Htag).
  exists w2. split; [erewrite bind_ok by exact Hrun1; exact Hrun2|].
  split; [|done]. by rewrite Hdb2, Hdb1, <- app_assoc.
Qed.

Lemma create_view_twice_sends_twice_witness :
  let w := (create_view "v1" users_query 0 true false no_kwargs one_table_world).2 in
  exists w',
    (View_create_view 0 (accepting postgresql) true ;;
     View_create_view 0 (accepting postgresql) true) w = (Ok tt, w')
    /\ length (database w') = 2%nat.
Proof.
  intros w.
  destruct (create_view_twice_sends_twice 0
              (derived_view "v1" 1 users_query [] ∅ false false ∅) postgresql w eq_refl)
    as (w' & Hrun & Hdb & _).
  exists w'. split; [exact Hrun|]. rewrite Hdb. reflexivity.
Defined.


(** ** More on the factories *)






(** X8: [create_materialized_view] is [create_view] with [materialized=True]
    among its keyword arguments and [replace=False], whatever
    [cascade_on_drop] is: same view, same listeners, same store. *)
Theorem create_materialized_view_is_create_view (name : string) (sel : Selectable)
    (metadata : nat) (indexes : option (list Index))
    (aliases : option (gmap string string)) (kwargs : dialect_kwargs)
    (cascade_on_drop : bool) (w : World) :
  create_materialized_view name sel metadata indexes aliases kwargs w
  = create_view name sel metadata cascade_on_drop false
      {| kw_indexes := indexes; kw_aliases := aliases; kw_materialized := Some true;
         kw_dialect := kwargs |} w.
Proof. reflexivity. Qed.

(** X9: two factory calls on one container.  The listeners pile up in the
    order of the calls, for the drop as for the create, and each view gets a
    container of its own. *)
Theorem two_factory_calls (metadata : nat) (w0 w1 w2 : World) (v1 v2 : nat)
    (md : MetaData) :
  metadatas w0 !! metadata = Some md ->
  produced_by_factory metadata w0 v1 w1 ->
  produced_by_factory metadata w1 v2 w2 ->
  v1 <> v2
  /\ exists md2 a b,
       metadatas w2 !! metadata = Some md2
       /\ tables md2 = tables md
       /\ after_create md2
          = after_create md ++ [hook_create_view v1; hook_create_indexes v1;
                                hook_create_view v2; hook_create_indexes v2]
       /\ before_drop md2 = before_drop md ++ [hook_drop_view v1; hook_drop_view v2]
       /\ views w2 !! v1 = Some a
       /\ views w2 !! v2 = Some b
       /\ v_metadata a <> v_metadata b
       /\ v_metadata a <> metadata
       /\ v_metadata b <> metadata.
Proof.
  intros Hmd H1 H2.
  destruct (produced_by_factory_metadatas _ _ _ _ _ Hmd H1)
    as (Hcaller1 & Hprivate1 & _ & _ & _ & _ & [a' Hviews1]).
  destruct (produced_by_factory_metadatas _ _ _ _ _ Hcaller1 H2)
    as (Hcaller2 & _ & _ & _ & _ & _ & [b' Hviews2]).
  destruct (produced_view _ _ _ _ H1) as (a & Ha & _ & Hma).
  destruct (produced_view _ _ _ _ H2) as (b & Hb & _ & Hmb).
  destruct (produced_by_factory_inv _ _ _ _ H1) as [-> _].
  destruct (produced_by_factory_inv _ _ _ _ H2) as [-> _].
  assert (metadata < length (metadatas w0))%nat as Hlt by (by eapply lookup_lt_Some).
  assert (length (metadatas w0) < length (metadatas w1))%nat as Hgrow
    by (by eapply lookup_lt_Some).
  split; [rewrite Hviews1, length_app; cbn; lia|].
  eexists _, a, b. split; [exact Hcaller2|]. cbn.
  split; [done|]. split; [by rewrite <- app_assoc|]. split; [by rewrite <- app_assoc|].
  split; [rewrite Hviews2; by apply lookup_app_l_Some|].
  split; [done|]. rewrite Hma, Hmb. lia.
Qed.

Lemma two_factory_calls_witness :
  let w1 := (create_view "v1" users_query 0 true false no_kwargs one_table_world).2 in
  let w2 := (create_materialized_view "v2" ab_query 0 None None ∅ w1).2 in
  exists md2,
    metadatas w2 !! 0%nat = Some md2
    /\ after_create md2 = [hook_create_view 0; hook_create_indexes 0;
                           hook_create_view 1; hook_create_indexes 1]
    /\ before_drop md2 = [hook_drop_view 0; hook_drop_view 1].
Proof.
  intros w1 w2.
  assert (create_materialized_view "v2" ab_query 0 None None ∅ w1 = (Ok 1%nat, w2))
    as Hsecond by (vm_compute; reflexivity).
  destruct (two_factory_calls 0 one_table_world w1 w2 0 1
              {| tables := [BaseTable users_table]; after_create := []; before_drop := [] |}
              eq_refl
              (by_create_view 0%nat one_table_world 0%nat w1 "v1" users_query true false
                 no_kwargs eq_refl)
              (by_create_materialized_view 0%nat w1 1%nat w2 "v2" ab_query None None ∅
                 Hsecond))
    as (_ & md2 & a & b & Hmd2 & _ & Hac & Hbd & _).
  exists md2. split; [exact Hmd2|]. split; [exact Hac | exact Hbd].
Defined.




(** ** More on the passes *)

Lemma drop_tables_accepting (compiler : Compiler) (tbs : list Table) (w : World) :
  exists w',
    for_each (fun t => tb <- as_table t ;; execute (accepting compiler) (StmtDropTable tb))
      (BaseTable <$> tbs) w = (Ok tt, w')
    /\ database w' = database w ++ (visit_drop_table compiler <$> tbs).
Proof.
  revert w. induction tbs as [|tb tbs IH]; intros w.
  - exists w. cbn. by rewrite app_nil_r.
  - cbn.
    destruct (IH (log_sql (visit_drop_table compiler tb)
                    (log_call (CallExecute (StmtDropTable tb)) w)))
      as (w' & Hrun & Hdb).
    exists w'. split; [exact Hrun|]. cbn in *.
    by rewrite Hdb, <- app_assoc.
Qed.

Lemma View_drop_view_accepting (view : nat) (v : View) (compiler : Compiler)
    (checkfirst : bool) (cascade : py_value) (w : World) :
  views w !! view = Some v ->
  v_attrs v !! "cascade" = Some cascade ->
  exists w',
    View_drop_view view (accepting compiler) checkfirst w = (Ok tt, w')
    /\ database w'
       = database w
           ++ ["DROP " +:+ (if materialized v then "MATERIALIZED " else EmptyString)
                 +:+ "VIEW IF EXISTS " +:+ quote compiler (v_name v)
                 +:+ " " +:+ (if truthy cascade then "CASCADE" else EmptyString)]
    /\ visit_name w' = "table".
Proof.
  intros Hv Hcascade. rewrite View_drop_view_run.
  unfold ExtSchemaDropper_visit_view, bind, deref_view. cbn. rewrite Hv.
  unfold execute, bind, modify, get. cbn.
  unfold compile_drop_materialized_view, getattr. cbn. rewrite Hcascade. cbn.
  eexists. by repeat split.
Qed.

(** X11: once a caller has assigned [view.cascade], the drop-all pass of the
    container goes through: the view is dropped first, with CASCADE when the
    value is true, then the base tables, last created first. *)
Theorem drop_all_order_after_setattr (metadata : nat) (w0 : World) (view : nat)
    (w : World) (tbs : list Table) (compiler : Compiler) (cascade : py_value) :
  metadatas w0 !! metadata
    = Some {| tables := BaseTable <$> tbs; after_create := []; before_drop := [] |} ->
  produced_by_factory metadata w0 view w ->
  exists v w',
    views w !! view = Some v
    /\ (update_view view (setattr "cascade" cascade) ;;
        MetaData_drop_all metadata (accepting compiler)) w = (Ok tt, w')
    /\ database w'
       = database w
           ++ ["DROP " +:+ (if materialized v then "MATERIALIZED " else EmptyString)
                 +:+ "VIEW IF EXISTS " +:+ quote compiler (v_name v)
                 +:+ " " +:+ (if truthy cascade then "CASCADE" else EmptyString)]
           ++ (visit_drop_table compiler <$> reverse tbs).
Proof.
  intros Hmd Hfactory.
  destruct (produced_by_factory_metadatas _ _ _ _ _ Hmd Hfactory) as (Hcaller & _).
  destruct (produced_view _ _ _ _ Hfactory) as (v & Hv & _).
  exists v.
  destruct (update_view_run view (setattr "cascade" cascade) v w Hv)
    as (w1 & Hrun1 & Hv1 & _ & Hmds1 & _ & Hdb1 & _).
  assert (v_attrs (setattr "cascade" cascade v) !! "cascade" = Some cascade) as Hattr
    by (cbn; apply lookup_insert_eq).
  destruct (View_drop_view_accepting view _ compiler false cascade w1 Hv1 Hattr)
    as (w2 & Hrun2 & Hdb2 & _).
  destruct (drop_tables_accepting compiler (reverse tbs) w2) as (w3 & Hrun3 & Hdb3).
  exists w3. split; [done|]. split.
  - erewrite bind_ok by exact Hrun1.
    unfold MetaData_drop_all.
    erewrite bind_ok by (unfold deref_metadata; by rewrite Hmds1, Hcaller).
    cbn [tables before_drop app for_each run_hook].
    erewrite bind_ok; [|erewrite bind_ok by exact Hrun2; reflexivity].
    rewrite <- fmap_reverse. exact Hrun3.
  - rewrite Hdb3, Hdb2, Hdb1. cbn. by rewrite <- app_assoc.
Qed.

Lemma drop_all_order_after_setattr_witness :
  let w := (create_view "v1" ab_query 0 true false no_kwargs one_table_world).2 in
  exists w',
    (update_view 0 (setattr "cascade" (PyBool true)) ;;
     MetaData_drop_all 0 (accepting postgresql)) w = (Ok tt, w')
    /\ database w'
       = ["DROP VIEW IF EXISTS " +:+ dq +:+ "v1" +:+ dq +:+ " CASCADE";
          "DROP TABLE " +:+ dq +:+ "users" +:+ dq].
Proof.
  intros w.
  destruct (drop_all_order_after_setattr 0 one_table_world 0 w [users_table] postgresql
              (PyBool true) eq_refl
              (by_create_view 0%nat one_table_world 0%nat w "v1" ab_query true false
                 no_kwargs eq_refl))
    as (v & w' & Hv & Hrun & Hdb).
  exists w'. split; [exact Hrun|].
  cbn in Hv. injection Hv as <-. exact Hdb.
Defined.

Lemma create_tables_run (conn : Connection) (tbs : list Table) (w : World) :
  (forall db tb, tb ∈ tbs ->
     conn_refuses conn db (visit_create_table (conn_compiler conn) tb) = None) ->
  exists w',
    for_each (fun t => tb <- as_table t ;; execute conn (StmtCreateTable tb))
      (BaseTable <$> tbs) w = (Ok tt, w')
    /\ database w' = database w ++ (visit_create_table (conn_compiler conn) <$> tbs)
    /\ views w' = views w.
Proof.
  revert w. induction tbs as [|tb tbs IH]; intros w Haccepts.
  - exists w. cbn. by rewrite app_nil_r.
  - destruct (IH (log_sql (visit_create_table (conn_compiler conn) tb)
                    (log_call (CallExecute (StmtCreateTable tb)) w)))
      as (w' & Hrun & Hdb & Hviews).
    { intros db tb' Hin. apply Haccepts. by apply elem_of_cons; right. }
    exists w'. split.
    + cbn [fmap list_fmap for_each]. change (BaseTable <$> tbs) with (list_fmap _ _ BaseTable tbs) in Hrun.
      unfold bind at 1. unfold bind at 1. cbn [as_table ret].
      unfold execute at 1. unfold bind, modify, get. cbn [compile].
      cbn. rewrite Haccepts by (apply elem_of_cons; by left). exact Hrun.
    + cbn in *. by rewrite Hdb, <- app_assoc.
Qed.

Lemma View_create_view_refused (view : nat) (v : View) (conn : Connection)
    (checkfirst : bool) (e : py_error) (w : World) :
  views w !! view = Some v ->
  conn_refuses conn (database w)
    (compile_create_materialized_view {| cv_element := v; if_not_exists := false |}
       (conn_compiler conn)) = Some e ->
  exists w',
    View_create_view view conn checkfirst w = (Err e, w')
    /\ database w' = database w
    /\ visit_name w' = "table".
Proof.
  intros Hv Hrefuses. rewrite View_create_view_run.
  unfold ExtSchemaGenerator_visit_view, bind, deref_view. cbn. rewrite Hv.
  unfold execute, bind, modify, get. cbn. rewrite Hrefuses.
  eexists. by repeat split.
Qed.

(** X12: when the database refuses the CREATE VIEW, the create-all pass
    raises the error of the database.  The tables created before stay
    created, the listener that creates the indexes does not run, and the
    dispatch tag is back at "table". *)
Theorem refused_view_aborts_create_all (metadata : nat) (w0 : World) (view : nat)
    (w : World) (tbs : list Table) (conn : Connection) (v : View) (e : py_error) :
  metadatas w0 !! metadata
    = Some {| tables := BaseTable <$> tbs; after_create := []; before_drop := [] |} ->
  produced_by_factory metadata w0 view w ->
  views w !! view = Some v ->
  (forall db tb, tb ∈ tbs ->
     conn_refuses conn db (visit_create_table (conn_compiler conn) tb) = None) ->
  (forall db,
     conn_refuses conn db
       (compile_create_materialized_view {| cv_element := v; if_not_exists := false |}
          (conn_compiler conn)) = Some e) ->
  exists w',
    MetaData_create_all metadata conn w = (Err e, w')
    /\ database w' = database w ++ (visit_create_table (conn_compiler conn) <$> tbs)
    /\ visit_name w' = "table".
Proof.
  intros Hmd Hfactory Hv Htables Hview.
  destruct (produced_by_factory_metadatas _ _ _ _ _ Hmd Hfactory) as (Hcaller & _).
  destruct (create_tables_run conn tbs w Htables) as (w1 & Hrun1 & Hdb1 & Hviews1).
  assert (views w1 !! view = Some v) as Hv1 by (by rewrite Hviews1).
  destruct (View_create_view_refused view v conn false e w1 Hv1 (Hview _))
    as (w2 & Hrun2 & Hdb2 & Htag).
  exists w2. split.
  - unfold MetaData_create_all.
    erewrite bind_ok by (unfold deref_metadata; by rewrite Hcaller).
    cbn [tables after_create app].
    erewrite bind_ok by exact Hrun1.
    cbn [for_each run_hook].
    by erewrite bind_err by exact Hrun2.
  - split; [by rewrite Hdb2, Hdb1 | exact Htag].
Qed.

Lemma refused_view_aborts_create_all_witness :
  let kwargs := {| kw_indexes := Some [{| idx_name := "ix_v1_a"; idx_columns := ["a"] |}];
                   kw_aliases := None; kw_materialized := None; kw_dialect := ∅ |} in
  let w := (create_view "v1" ab_query 0 true false kwargs one_table_world).2 in
  exists e w',
    MetaData_create_all 0 (refusing_views postgresql) w = (Err e, w')
    /\ database w' = ["CREATE TABLE " +:+ dq +:+ "users" +:+ dq]
    /\ visit_name w' = "table".
Proof.
  intros kwargs w.
  destruct (refused_view_aborts_create_all 0 one_table_world 0 w [users_table]
              (refusing_views postgresql)
              (derived_view "v1" 1 ab_query
                 [{| idx_name := "ix_v1_a"; idx_columns := ["a"] |}] ∅ false false ∅)
              (ExecutionError ("CREATE VIEW " +:+ dq +:+ "v1" +:+ dq
                                 +:+ " AS SELECT t.a, t.b FROM t WHERE t.a > 5"))
              eq_refl
              (by_create_view 0%nat one_table_world 0%nat w "v1" ab_query true false
                 kwargs eq_refl)
              eq_refl)
    as (w' & Hrun & Hdb & Htag).
  - intros db tb Hin. apply list_elem_of_singleton in Hin. subst tb. reflexivity.
  - intros db. reflexivity.
  - eexists _, w'. split; [exact Hrun|]. split; [exact Hdb | exact Htag].
Defined.

(** ** Reading a statement back *)

(** X13: the text of a CREATE statement tells the two flags of its view, and
    the text of a DROP statement tells whether its view is materialized:
    two statements with the same text agree on them, whatever their names,
    queries and dialects are. *)
Theorem statement_text_determines_flags :
  (forall (c1 c2 : CreateView) (k1 k2 : Compiler),
     compile_create_materialized_view c1 k1 = compile_create_materialized_view c2 k2 ->
     replace (cv_element c1) = replace (cv_element c2)
     /\ materialized (cv_element c1) = materialized (cv_element c2))
  /\ (forall (d1 d2 : DropView) (k1 k2 : Compiler) (text : string),
        compile_drop_materialized_view d1 k1 = Ok text ->
        compile_drop_materialized_view d2 k2 = Ok text ->
        materialized (dv_element d1) = materialized (dv_element d2)).
Proof.
  split.
  - intros c1 c2 k1 k2. unfold compile_create_materialized_view.
    destruct (replace (cv_element c1)), (replace (cv_element c2)),
      (materialized (cv_element c1)), (materialized (cv_element c2));
      cbn; intros H; try done; discriminate H.
  - intros d1 d2 k1 k2 text. unfold compile_drop_materialized_view.
    destruct (getattr (dv_element d1) "cascade") as [x1|]; [|done].
    destruct (getattr (dv_element d2) "cascade") as [x2|]; [|done].
    destruct (materialized (dv_element d1)), (materialized (dv_element d2));
      cbn; intros [= <-] H; try done; discriminate H.
Qed.

Lemma statement_text_determines_flags_witness :
  replace (plain_view "v1" true false fillfactor_70) = replace (plain_view "v1" true false fillfactor_70)
  /\ materialized (plain_view "v1" true false fillfactor_70)
     = materialized (plain_view "v1" true false fillfactor_70).
Proof.
  exact (proj1 statement_text_determines_flags
           {| cv_element := plain_view "v1" true false fillfactor_70; if_not_exists := false |}
           {| cv_element := plain_view "v1" true false fillfactor_70; if_not_exists := true |}
           postgresql postgresql eq_refl).
Defined.



